(** * Merit-order dispatch: a shallow embedding of [main.py]

    The development follows the source file top to bottom:

    - [PyNum]: the Python numbers the program computes with.  An [int] is
      an unbounded integer; a [float] is an IEEE 754 binary64 value, held
      as the Standard Library's [spec_float] and computed with its
      round-to-nearest-even operations, so a run of the model produces the
      very doubles CPython produces.  The operators are the ones the
      source uses ([<], [<=], [>], [>=], [*], [/], [-], [float(x)],
      [round(x, 1)]), each with the exception Python raises.
    - the pydantic models ([Fuels], [Powerplant], [InputData],
      [ResultItem]) and the two exception classes;
    - [ProductionPlanCalculator]: its four methods.  The [Powerplant]
      objects live in a store indexed by reference, because
      [list(self.powerplants)] copies the list and not the objects in it:
      the caller and the calculator share them.
    - [App]: the two handlers of the application.
    - the properties of the dispatch engine and of the handler. *)

From Stdlib Require Import ZArith Lia Bool List String.
From Stdlib Require Import Sorted Permutation.
From Stdlib Require Import Floats.SpecFloat.
Import ListNotations.

Local Open Scope string_scope.
Local Open Scope Z_scope.
Local Open Scope list_scope.

(** ** Exceptions and fallible computations *)

(** The two exception classes of the source, and the built-in exceptions
    its expressions can raise. *)
Inductive exn : Set :=
  | InvalidPlantTypeProvided
  | ManualInterventionNeeded
  | ZeroDivisionError
  | TypeError
  | OverflowError
  | UnboundLocalError.

Inductive result (A : Type) : Type :=
  | Ok (a : A)
  | Raise (e : exn).

Arguments Ok {A} a.
Arguments Raise {A} e.

Definition bind {A B : Type} (m : result A) (k : A -> result B) : result B :=
  match m with
  | Ok a => k a
  | Raise e => Raise e
  end.

Notation "x <- m ;; k" := (bind m (fun x => k))
  (at level 61, m at next level, right associativity).

(** ** Python numbers *)

Module PyNum.

(** binary64: 53 bits of precision, exponents below 1024. *)
Definition prec : Z := 53.
Definition emax : Z := 1024.

Inductive num : Set :=
  | Int (z : Z)
  | Flt (f : spec_float).

Definition is_nan (f : spec_float) : bool :=
  match f with S754_nan => true | _ => false end.

Definition is_inf (f : spec_float) : bool :=
  match f with S754_infinity _ => true | _ => false end.

Definition is_zero (f : spec_float) : bool :=
  match f with S754_zero _ => true | _ => false end.

(** [math.isfinite] *)
Definition is_finite (f : spec_float) : bool :=
  match f with S754_zero _ | S754_finite _ _ _ => true | _ => false end.

Definition Z2SF (z : Z) : spec_float :=
  match z with
  | Z0 => S754_zero false
  | Zpos p => S754_finite false p 0
  | Zneg p => S754_finite true p 0
  end.

(** *** Comparison

    Python compares an [int] with a [float] by value, without converting
    the [int] (which might not fit a double).  Every number is sent to
    its exact value [m * 2^e], or to an infinity or NaN. *)

Inductive xval : Set :=
  | XNaN
  | XInf (neg : bool)
  | XFin (m e : Z).

Definition xval_of_float (f : spec_float) : xval :=
  match f with
  | S754_zero _ => XFin 0 0
  | S754_infinity s => XInf s
  | S754_nan => XNaN
  | S754_finite s m e => XFin (cond_Zopp s (Zpos m)) e
  end.

Definition xval_of (x : num) : xval :=
  match x with
  | Int z => XFin z 0
  | Flt f => xval_of_float f
  end.

Definition cmp_fin (m1 e1 m2 e2 : Z) : comparison :=
  let e := Z.min e1 e2 in
  Z.compare (m1 * 2 ^ (e1 - e)) (m2 * 2 ^ (e2 - e)).

Definition xcompare (a b : xval) : option comparison :=
  match a, b with
  | XNaN, _ | _, XNaN => None
  | XInf s1, XInf s2 =>
      Some (match s1, s2 with
            | true, false => Lt
            | false, true => Gt
            | _, _ => Eq
            end)
  | XInf s, XFin _ _ => Some (if s then Lt else Gt)
  | XFin _ _, XInf s => Some (if s then Gt else Lt)
  | XFin m1 e1, XFin m2 e2 => Some (cmp_fin m1 e1 m2 e2)
  end.

Definition py_compare (x y : num) : option comparison :=
  xcompare (xval_of x) (xval_of y).

(** [x < y], [x <= y], [x > y], [x >= y]: all false when a NaN is
    involved. *)
Definition py_lt (x y : num) : bool :=
  match py_compare x y with Some Lt => true | _ => false end.

Definition py_le (x y : num) : bool :=
  match py_compare x y with Some Lt | Some Eq => true | _ => false end.

Definition py_gt (x y : num) : bool :=
  match py_compare x y with Some Gt => true | _ => false end.

Definition py_ge (x y : num) : bool :=
  match py_compare x y with Some Gt | Some Eq => true | _ => false end.

(** *** Conversion and arithmetic *)

(** [float(x)]: an [int] is rounded to the nearest double, ties to even;
    one beyond the range of doubles raises [OverflowError]. *)
Definition py_float (x : num) : result spec_float :=
  match x with
  | Flt f => Ok f
  | Int z =>
      let f := binary_normalize prec emax z 0 false in
      if is_inf f then Raise OverflowError else Ok f
  end.

(** [x * y] *)
Definition py_mul (x y : num) : result num :=
  match x, y with
  | Int a, Int b => Ok (Int (a * b))
  | _, _ =>
      fx <- py_float x;;
      fy <- py_float y;;
      Ok (Flt (SFmul prec emax fx fy))
  end.

(** [x - y] *)
Definition py_sub (x y : num) : result num :=
  match x, y with
  | Int a, Int b => Ok (Int (a - b))
  | _, _ =>
      fx <- py_float x;;
      fy <- py_float y;;
      Ok (Flt (SFsub prec emax fx fy))
  end.

(** [x / y]: true division.  Of two [int]s it is the correctly rounded
    quotient (not the quotient of the rounded operands), and
    [OverflowError] when that is beyond the doubles; of [float]s it is
    IEEE division.  A zero divisor raises [ZeroDivisionError]. *)
Definition py_truediv (x y : num) : result num :=
  match x, y with
  | Int a, Int b =>
      if b =? 0 then Raise ZeroDivisionError
      else
        let q := SFdiv prec emax (Z2SF a) (Z2SF b) in
        if is_inf q then Raise OverflowError else Ok (Flt q)
  | _, _ =>
      fx <- py_float x;;
      fy <- py_float y;;
      if is_zero fy then Raise ZeroDivisionError
      else Ok (Flt (SFdiv prec emax fx fy))
  end.

(** Nearest integer to [n / d] for [d > 0], ties to even. *)
Definition round_half_even (n d : Z) : Z :=
  let q := n / d in
  let r := n mod d in
  match 2 * r ?= d with
  | Lt => q
  | Gt => q + 1
  | Eq => if Z.even q then q else q + 1
  end.

(** The integer nearest to [10 * (m * 2^e)], for [m > 0]. *)
Definition tenths (m : positive) (e : Z) : Z :=
  match e with
  | Zneg p => round_half_even (10 * Zpos m) (2 ^ Zpos p)
  | _ => 10 * Zpos m * 2 ^ e
  end.

(** [round(x, 1)].  An [int] is returned as it is.  A [float] is rounded
    to the nearest multiple of one tenth (of its exact value, ties to
    even) and the double nearest to that decimal is returned; zeros,
    infinities and NaN round to themselves. *)
Definition py_round1 (x : num) : result num :=
  match x with
  | Int z => Ok (Int z)
  | Flt (S754_finite s m e) =>
      match tenths m e with
      | Zpos k =>
          let r := SFdiv prec emax (S754_finite s k 0) (S754_finite false 10 0) in
          if is_inf r then Raise OverflowError else Ok (Flt r)
      | _ => Ok (Flt (S754_zero s))
      end
  | Flt f => Ok (Flt f)
  end.

(** A decimal literal [n / 10^k] of the source language, as Python reads
    it: the nearest double. *)
Definition dec (n : Z) (k : Z) : spec_float :=
  SFdiv prec emax (Z2SF n) (Z2SF (10 ^ k)).

End PyNum.

Import PyNum.

(** ** The pydantic models *)

Record Fuels : Set := {
  gas : spec_float;
  kerosine : spec_float;
  co2 : Z;
  wind : Z
}.

(** [pmax] is declared twice in the class body; the second annotation,
    [Optional[int] = None], is the one that stands.  The two optional
    fields are assigned by the calculator, with whatever number it
    derived: an attribute of a pydantic model is not validated on
    assignment. *)
Record Powerplant : Set := {
  name : string;
  type : string;
  efficiency : spec_float;
  pmin : Z;
  cost_per_MWH : option num;
  pmax : option num
}.

(** Objects are held by reference. *)
Definition loc : Set := nat.
Definition store : Set := loc -> Powerplant.

Definition store_set (h : store) (l : loc) (o : Powerplant) : store :=
  fun l' => if Nat.eqb l' l then o else h l'.

Record InputData : Set := {
  load : Z;
  fuels : Fuels;
  powerplants : list loc
}.

(** [ResultItem(name=..., p=...)] *)
Record ResultItem : Set := {
  item_name : string;
  p : spec_float
}.

(** Assignment to one attribute of an object. *)
Definition set_cost_per_MWH (o : Powerplant) (v : num) : Powerplant :=
  {| name := name o; type := type o; efficiency := efficiency o;
     pmin := pmin o; cost_per_MWH := Some v; pmax := pmax o |}.

Definition set_pmax (o : Powerplant) (v : option num) : Powerplant :=
  {| name := name o; type := type o; efficiency := efficiency o;
     pmin := pmin o; cost_per_MWH := cost_per_MWH o; pmax := v |}.

(** An attribute that holds [None] where a number is operated on. *)
Definition as_num (v : option num) : result num :=
  match v with
  | Some x => Ok x
  | None => Raise TypeError
  end.

(** ** ProductionPlanCalculator *)

Record ProductionPlanCalculator : Set := {
  self_load : Z;
  self_fuels : Fuels;
  self_powerplants : list loc
}.

(** [__init__] *)
Definition init (input_data : InputData) : ProductionPlanCalculator :=
  {| self_load := load input_data;
     self_fuels := fuels input_data;
     self_powerplants := powerplants input_data |}.

Definition calculate_cost_per_MWH
    (self : ProductionPlanCalculator) (powerplant : Powerplant) : result num :=
  if String.eqb (type powerplant) "gasfired" then
    py_truediv (Flt (gas (self_fuels self))) (Flt (efficiency powerplant))
  else if String.eqb (type powerplant) "turbojet" then
    py_truediv (Flt (kerosine (self_fuels self))) (Flt (efficiency powerplant))
  else if String.eqb (type powerplant) "windturbine" then
    Ok (Int 0)
  else
    Raise InvalidPlantTypeProvided.

(** No branch binds the local [pmax] for another type: [return pmax]
    then raises [UnboundLocalError]. *)
Definition calculate_pmax
    (self : ProductionPlanCalculator) (powerplant : Powerplant)
    : result (option num) :=
  if String.eqb (type powerplant) "windturbine" then
    n <- as_num (pmax powerplant);;
    m <- py_mul n (Int (wind (self_fuels self)));;
    q <- py_truediv m (Int 100);;
    Ok (Some q)
  else if String.eqb (type powerplant) "gasfired"
          || String.eqb (type powerplant) "turbojet" then
    Ok (pmax powerplant)
  else
    Raise UnboundLocalError.

(** The [for] loop of [get_sorted_powerplants_with_pmax_and_cost]: each
    object of [plants] is updated in place, first its cost, then its
    [pmax] (computed from the object as it then is).  An exception leaves
    the objects updated so far as they are. *)
Fixpoint derive_loop (self : ProductionPlanCalculator) (plants : list loc)
    (h : store) : store * result unit :=
  match plants with
  | [] => (h, Ok tt)
  | l :: rest =>
      match calculate_cost_per_MWH self (h l) with
      | Raise e => (h, Raise e)
      | Ok c =>
          let h1 := store_set h l (set_cost_per_MWH (h l) c) in
          match calculate_pmax self (h1 l) with
          | Raise e => (h1, Raise e)
          | Ok m => derive_loop self rest (store_set h1 l (set_pmax (h1 l) m))
          end
      end
  end.

(** [sorted(plants, key=...)]: a stable sort that compares keys with [<]
    only.  On keys that [<] orders totally (no NaN among them) every
    stable sort returns the same list; this one inserts each element
    before the first one that is not smaller.  With a NaN among the keys
    the order CPython returns can differ from this one: the theorems
    that state an order are about validated requests, whose keys are
    numbers, and the others use only that the result rearranges the
    input. *)
Fixpoint insert_by {A : Type} (key : A -> num) (x : A) (l : list A) : list A :=
  match l with
  | [] => [x]
  | y :: l' =>
      if py_lt (key y) (key x) then y :: insert_by key x l'
      else x :: y :: l'
  end.

Fixpoint sorted {A : Type} (key : A -> num) (l : list A) : list A :=
  match l with
  | [] => []
  | x :: l' => insert_by key x (sorted key l')
  end.

(** The key of the sort, [lambda x: x.cost_per_MWH].  The loop before the
    sort has assigned the attribute of every element, so it holds a
    number there (lemma [derive_loop_cost_set]). *)
Definition key_of (h : store) (l : loc) : num :=
  match cost_per_MWH (h l) with
  | Some c => c
  | None => Int 0
  end.

Definition get_sorted_powerplants_with_pmax_and_cost
    (self : ProductionPlanCalculator) (h : store) : store * result (list loc) :=
  let plants := self_powerplants self in
  match derive_loop self plants h with
  | (h', Raise e) => (h', Raise e)
  | (h', Ok _) => (h', Ok (sorted (key_of h') plants))
  end.

(** The local variables of [get_production_plan] that its loop updates.
    [power] is unbound until a branch assigns it. *)
Record locals : Set := {
  remaining_load : num;
  power : option spec_float;
  production_plan : list ResultItem
}.

(** One iteration of the loop of [get_production_plan], for the object
    [plant].  When [remaining_load > 0] and none of the three tests
    holds, no branch assigns [power]: the statement after the [if] reads
    the value an earlier iteration left, or raises [UnboundLocalError]. *)
Definition allocate_step (plant : Powerplant) (st : locals) : result locals :=
  let r := remaining_load st in
  if py_gt r (Int 0) then
    if py_lt r (Int (pmin plant)) then Raise ManualInterventionNeeded
    else
      cap <- as_num (pmax plant);;
      pw <- (if py_ge r cap then
               x <- py_round1 cap;; f <- py_float x;; Ok (Some f)
             else if py_le (Int (pmin plant)) r && py_lt r cap then
               x <- py_round1 r;; f <- py_float x;; Ok (Some f)
             else Ok (power st));;
      f <- match pw with
           | Some f => Ok f
           | None => Raise UnboundLocalError
           end;;
      r' <- py_sub r (Flt f);;
      Ok {| remaining_load := r';
            power := Some f;
            production_plan :=
              production_plan st ++ [{| item_name := name plant; p := f |}] |}
  else
    Ok {| remaining_load := r;
          power := Some (S754_zero false);
          production_plan :=
            production_plan st
              ++ [{| item_name := name plant; p := S754_zero false |}] |}.

Fixpoint allocate_loop (h : store) (plants : list loc) (st : locals)
    : result locals :=
  match plants with
  | [] => Ok st
  | l :: rest =>
      st' <- allocate_step (h l) st;;
      allocate_loop h rest st'
  end.

(** The locals before the loop: [production_plan = []],
    [remaining_load = self.load], [power] not yet bound. *)
Definition initial_locals (self : ProductionPlanCalculator) : locals :=
  {| remaining_load := Int (self_load self);
     power := None;
     production_plan := [] |}.

Definition get_production_plan
    (self : ProductionPlanCalculator) (h : store)
    : store * result (list ResultItem) :=
  match get_sorted_powerplants_with_pmax_and_cost self h with
  | (h', Raise e) => (h', Raise e)
  | (h', Ok plants) =>
      (h', st <- allocate_loop h' plants (initial_locals self);;
           Ok (production_plan st))
  end.

(** ** The specification's vocabulary *)

(** The closed set of generation technologies, and the tag of each. *)
Inductive kind : Set :=
  | FossilGas
  | FossilDistillate
  | Wind.

Definition kind_of_type (t : string) : option kind :=
  if String.eqb t "gasfired" then Some FossilGas
  else if String.eqb t "turbojet" then Some FossilDistillate
  else if String.eqb t "windturbine" then Some Wind
  else None.

(** deriveMarginalCost and deriveEffectiveCapacity, as the specification
    words them. *)
Definition deriveMarginalCost (k : kind) (f : Fuels) (eff : spec_float)
    : result num :=
  match k with
  | FossilGas => py_truediv (Flt (gas f)) (Flt eff)
  | FossilDistillate => py_truediv (Flt (kerosine f)) (Flt eff)
  | Wind => Ok (Int 0)
  end.

Definition deriveEffectiveCapacity (k : kind) (f : Fuels) (nameplate : Z)
    : result num :=
  match k with
  | Wind => py_truediv (Int (nameplate * wind f)) (Int 100)
  | FossilGas | FossilDistillate => Ok (Int nameplate)
  end.

(** A ranked unit as the allocation reads it: its name, its minimum
    stable output and its effective capacity. *)
Record unit_view : Set := {
  u_name : string;
  u_min : Z;
  u_cap : num
}.

Definition view_of (o : Powerplant) : option unit_view :=
  match pmax o with
  | Some c => Some {| u_name := name o; u_min := pmin o; u_cap := c |}
  | None => None
  end.

Fixpoint views_of (h : store) (plants : list loc) : option (list unit_view) :=
  match plants with
  | [] => Some []
  | l :: rest =>
      match view_of (h l), views_of h rest with
      | Some u, Some us => Some (u :: us)
      | _, _ => None
      end
  end.

(** "rounded to one decimal place": [float(round(x, 1))]. *)
Definition one_decimal (x : num) : result spec_float :=
  y <- py_round1 x;; py_float y.

(** allocate, as the specification words it: the four cases, in order,
    over the ranked units, with the running remaining load. *)
Fixpoint dispatch (remaining : num) (ranked : list unit_view)
    : result (list ResultItem) :=
  match ranked with
  | [] => Ok []
  | u :: rest =>
      if py_le remaining (Int 0) then
        items <- dispatch remaining rest;;
        Ok ({| item_name := u_name u; p := S754_zero false |} :: items)
      else if py_lt remaining (Int (u_min u)) then
        Raise ManualInterventionNeeded
      else if py_ge remaining (u_cap u) then
        f <- one_decimal (u_cap u);;
        r <- py_sub remaining (Flt f);;
        items <- dispatch r rest;;
        Ok ({| item_name := u_name u; p := f |} :: items)
      else
        f <- one_decimal remaining;;
        r <- py_sub remaining (Flt f);;
        items <- dispatch r rest;;
        Ok ({| item_name := u_name u; p := f |} :: items)
  end.

(** *** The validated request (the input contract of the engine) *)

(** A finite float above zero. *)
Definition positive_float (f : spec_float) : bool :=
  match f with
  | S754_finite false _ _ => true
  | _ => false
  end.

Definition validated_fuels (f : Fuels) : bool :=
  positive_float (gas f) && positive_float (kerosine f)
  && (0 <=? co2 f) && (0 <=? wind f) && (wind f <=? 100).

Definition validated_unit (o : Powerplant) : bool :=
  positive_float (efficiency o) && (0 <=? pmin o)
  && match pmax o with
     | Some (Int n) => 0 <=? n
     | _ => false
     end.

Fixpoint distinct (l : list loc) : bool :=
  match l with
  | [] => true
  | x :: l' => negb (existsb (Nat.eqb x) l') && distinct l'
  end.

(** A non-negative load, validated prices, and a non-empty list of
    distinct validated units. *)
Definition validated (self : ProductionPlanCalculator) (h : store) : bool :=
  (0 <=? self_load self)
  && validated_fuels (self_fuels self)
  && negb (Nat.eqb (List.length (self_powerplants self)) 0)
  && distinct (self_powerplants self)
  && forallb (fun l => validated_unit (h l)) (self_powerplants self).

(** *** Properties of a result *)

(** The assigned output [q] is the one-decimal rounding of a quantity
    between zero and the unit's effective capacity. *)
Definition rounds_within (u : unit_view) (q : spec_float) : Prop :=
  exists x : num,
    py_le (Int 0) x = true /\ py_le x (u_cap u) = true
    /\ one_decimal x = Ok q.

(** Two keys of equal cost: neither is below the other. *)
Definition same_cost (c x : num) : bool :=
  match py_compare x c with
  | Some Eq => true
  | _ => false
  end.

(** The sum of the assigned outputs, added as Python's [sum] adds
    floats, and the conservation test: the total is within one tenth of
    the load. *)
Definition total_output (plan : list ResultItem) : spec_float :=
  fold_left (fun acc i => SFadd prec emax acc (p i)) plan (S754_zero false).

Definition conserves (load : Z) (plan : list ResultItem) : bool :=
  match py_sub (Int load) (Flt (total_output plan)) with
  | Ok d => py_le d (Flt (dec 1 1)) && py_le (Flt (dec (-1) 1)) d
  | Raise _ => false
  end.

(** *** Classes of numbers *)

(** A float whose sign bit is [s]: a zero, a finite value or an infinity,
    never a NaN. *)
Definition signed (s : bool) (f : spec_float) : Prop :=
  match f with
  | S754_zero s' | S754_infinity s' | S754_finite s' _ _ => s' = s
  | S754_nan => False
  end.

(** A number: an [int], or a [float] that is not a NaN. *)
Definition not_nan (x : num) : bool :=
  match x with
  | Flt S754_nan => false
  | _ => true
  end.

(** A number that is neither a NaN nor an infinity. *)
Definition finite_num (x : num) : bool :=
  match x with
  | Int _ => true
  | Flt f => is_finite f
  end.

(** The order of the ranking: [a] is not above [b]. *)
Definition key_le {A : Type} (key : A -> num) (a b : A) : Prop :=
  py_le (key a) (key b) = true.

(** The attributes of a unit that the caller supplies and the engine
    only reads. *)
Definition same_inputs (o o' : Powerplant) : Prop :=
  name o = name o' /\ type o = type o'
  /\ efficiency o = efficiency o' /\ pmin o = pmin o'.

(** An entry of the result for the ranked unit [u]. *)
Definition entry_ok (u : unit_view) (i : ResultItem) : Prop :=
  item_name i = u_name u
  /\ py_le (Int 0) (Flt (p i)) = true
  /\ rounds_within u (p i).

(** A capacity the allocation can compare and round: finite, not below
    zero. *)
Definition usable_cap (u : unit_view) : Prop :=
  finite_num (u_cap u) = true /\ py_le (Int 0) (u_cap u) = true.

(** The ranked unit [u] is the object at [l] as the caller supplied it,
    with its derived effective capacity. *)
Definition effective_unit (self : ProductionPlanCalculator) (h : store)
    (l : loc) (u : unit_view) : Prop :=
  u_name u = name (h l) /\ u_min u = pmin (h l)
  /\ calculate_pmax self (h l) = Ok (Some (u_cap u)).

(** ** The application *)

(** What a handler returns, before FastAPI serializes it: a list of
    result items, or a dictionary with one string entry. *)
Inductive body : Set :=
  | Items (items : list ResultItem)
  | Entry (key value : string).

Module App.

(** [GET /] *)
Definition root : body :=
  Entry "message" "Post a correct payload to /productionplan".

(** The text of the error entry: three adjacent string literals. *)
Definition error_text : string :=
  String.append "Failed to calculate production plan automatically. "
    (String.append "Remaining load exceeds next powerplant min power. "
       "Some cheaper plants might need to be switched off.").

(** [POST /productionplan]: a calculator is built for the request, and
    only [ManualInterventionNeeded] is caught. *)
Definition get_production_plan (input_data : InputData) (h : store)
    : store * result body :=
  let prodplan_calculator := init input_data in
  match get_production_plan prodplan_calculator h with
  | (h', Ok plan) => (h', Ok (Items plan))
  | (h', Raise ManualInterventionNeeded) => (h', Ok (Entry "error" error_text))
  | (h', Raise e) => (h', Raise e)
  end.

End App.

(** *** Relations between stores and results *)

(** Two objects that differ at most in their derived cost. *)
Definition same_but_cost (o o' : Powerplant) : Prop :=
  same_inputs o o' /\ pmax o = pmax o'.

(** The unit at [l] is listed with an output of 0. *)
Definition zero_item (h : store) (l : loc) : ResultItem :=
  {| item_name := name (h l); p := S754_zero false |}.

(** The entry of the plan for the object at [l]: its name, and 0 when
    the object is a wind turbine. *)
Definition still_turbine (h : store) (l : loc) (i : ResultItem) : Prop :=
  item_name i = name (h l)
  /\ (type (h l) = "windturbine" -> p i = S754_zero false).

(** No listed unit is a wind turbine. *)
Definition no_wind (self : ProductionPlanCalculator) (h : store) : bool :=
  forallb (fun l => negb (String.eqb (type (h l)) "windturbine"))
    (self_powerplants self).

(** No listed unit has a minimum above zero. *)
Definition no_floor (self : ProductionPlanCalculator) (h : store) : bool :=
  forallb (fun l => pmin (h l) <=? 0) (self_powerplants self).

(** Every listed unit has one of the three known types. *)
Definition known_kinds (self : ProductionPlanCalculator) (h : store) : bool :=
  forallb (fun l => match kind_of_type (type (h l)) with
                    | Some _ => true
                    | None => false
                    end) (self_powerplants self).

(** *** The request as the framework parses it *)

(** [pmax] holds an [int]: the field was given in the payload. *)
Definition int_pmax (o : Powerplant) : bool :=
  match pmax o with
  | Some (Int _) => true
  | _ => false
  end.

(** The listed units are distinct objects, each with an [int] in [pmax].
    Nothing is asked of the load, the prices, the types, the efficiencies
    or the minima. *)
Definition parsed (self : ProductionPlanCalculator) (h : store) : bool :=
  distinct (self_powerplants self)
  && forallb (fun l => int_pmax (h l)) (self_powerplants self).

(** A gasfired or turbojet unit whose efficiency is a zero. *)
Definition zero_efficiency_unit (o : Powerplant) : bool :=
  (String.eqb (type o) "gasfired" || String.eqb (type o) "turbojet")
  && is_zero (efficiency o).

(** Some listed unit is one of those: its cost derivation divides by
    zero. *)
Definition divides_by_zero (self : ProductionPlanCalculator) (h : store)
    : bool :=
  existsb (fun l => zero_efficiency_unit (h l)) (self_powerplants self).

(** *** Requests within the limits *)

(** A number with at most [D] binary digits before the point: an [int]
    below [2^D] in magnitude, or a finite [float] below [2^D]. *)
Definition small (D : Z) (x : num) : Prop :=
  match xval_of x with
  | XFin m e => Zdigits2 m + e <= D
  | _ => False
  end.

(** The largest load and capacity considered: far above any real one,
    and low enough for every intermediate double to stay finite. *)
Definition limit : Z := 2 ^ 1000.

(** The load and the [pmax] of every listed unit are below the limit. *)
Definition within_limits (self : ProductionPlanCalculator) (h : store)
    : bool :=
  (self_load self <? limit)
  && forallb (fun l => match pmax (h l) with
                       | Some (Int n) => n <? limit
                       | _ => false
                       end) (self_powerplants self).

(** ** Requests used as examples *)

(** [Powerplant(name=..., type=..., efficiency=..., pmin=..., pmax=...)]:
    the derived cost is not given and stays [None]. *)
Definition new_powerplant (n t : string) (eff : spec_float) (lo : Z)
    (hi : option Z) : Powerplant :=
  {| name := n; type := t; efficiency := eff; pmin := lo;
     cost_per_MWH := None; pmax := option_map Int hi |}.

(** The store that holds the objects of a list at the references
    0, 1, 2, ... *)
Definition store_of (objs : list Powerplant) : store :=
  fun l => nth l objs (new_powerplant "" "" (S754_zero false) 0 None).

(** [ProductionPlanCalculator(InputData(load=..., fuels=...,
    powerplants=[...]))] over the objects of [store_of objs]. *)
Definition calculator (ld : Z) (f : Fuels) (objs : list Powerplant)
    : ProductionPlanCalculator :=
  init {| load := ld; fuels := f;
          powerplants := seq 0 (List.length objs) |}.

(** Gas at 10.0, kerosine at 50.0, carbon at 20, wind at [w] percent. *)
Definition prices (w : Z) : Fuels :=
  {| gas := dec 10 0; kerosine := dec 50 0; co2 := 20; wind := w |}.

(** Scenario 1 of the specification (load 480, wind at 60 percent), the
    units given out of merit order. *)
Definition scenario1 : list Powerplant :=
  [ new_powerplant "gasB" "gasfired" (dec 4 1) 50 (Some 200);
    new_powerplant "wind" "windturbine" (dec 1 0) 0 (Some 200);
    new_powerplant "gasA" "gasfired" (dec 5 1) 100 (Some 400) ].

(** One wind turbine of 7 at 38 percent of wind: a capacity of 2.66. *)
Definition small_wind : list Powerplant :=
  [ new_powerplant "w" "windturbine" (dec 1 0) 0 (Some 7) ].

(** One wind turbine of 200, for a load of 100 at 60 percent of wind. *)
Definition one_wind : list Powerplant :=
  [ new_powerplant "w" "windturbine" (dec 1 0) 0 (Some 200) ].

(** One gas unit of 10, for a load of 100. *)
Definition one_gas : list Powerplant :=
  [ new_powerplant "g" "gasfired" (dec 5 1) 0 (Some 10) ].

(** Load 1 at 10 percent of wind: two turbines with capacities 0.1 and
    0.7, a gas unit that can close the gap of 0.2, and a dearer gas unit
    with a minimum of 1. *)
Definition residue : list Powerplant :=
  [ new_powerplant "w1" "windturbine" (dec 1 0) 0 (Some 1);
    new_powerplant "w2" "windturbine" (dec 1 0) 0 (Some 7);
    new_powerplant "g1" "gasfired" (dec 5 1) 0 (Some 5);
    new_powerplant "g2" "gasfired" (dec 4 1) 1 (Some 5) ].

(** A gas unit whose efficiency is 0, a wind turbine with no [pmax] and
    a gas unit with no [pmax]: all pass the [Powerplant] model. *)
Definition zero_efficiency : list Powerplant :=
  [ new_powerplant "g" "gasfired" (dec 0 0) 0 (Some 10) ].

Definition no_pmax : list Powerplant :=
  [ new_powerplant "w" "windturbine" (dec 1 0) 0 None ].

Definition no_pmax_gas : list Powerplant :=
  [ new_powerplant "g" "gasfired" (dec 5 1) 0 None ].

(** A unit of a kind outside the closed set, after a valid one. *)
Definition solar : Powerplant :=
  new_powerplant "s" "solarfired" (dec 5 1) 10 (Some 200).

Definition with_solar : list Powerplant :=
  [ new_powerplant "g" "gasfired" (dec 5 1) 10 (Some 200); solar ].

(** * Properties *)

(** ** The IEEE operations never produce a NaN from numbers *)

Section Rounding.

Lemma shr_1_nonneg mrs : 0 <= shr_m mrs -> 0 <= shr_m (shr_1 mrs).
Proof.
  destruct mrs as [m r s]; simpl.
  destruct m as [|q|q]; simpl; try lia.
  - destruct q; simpl; lia.
Qed.

Lemma iter_shr_1_nonneg n mrs :
  0 <= shr_m mrs -> 0 <= shr_m (iter_pos shr_1 n mrs).
Proof.
  revert mrs.
  induction n as [n IH|n IH|]; intros mrs H; simpl.
  - apply IH, IH, shr_1_nonneg, H.
  - apply IH, IH, H.
  - apply shr_1_nonneg, H.
Qed.

Lemma shr_fexp_nonneg m e l :
  0 <= m -> 0 <= shr_m (fst (shr_fexp prec emax m e l)).
Proof.
  intros H. unfold shr_fexp, shr.
  assert (H0 : 0 <= shr_m (shr_record_of_loc m l)).
  { destruct l as [|[]]; simpl; exact H. }
  destruct (fexp prec emax (Zdigits2 m + e) - e); simpl; auto.
  apply iter_shr_1_nonneg, H0.
Qed.

Lemma round_nearest_even_nonneg m l : 0 <= m -> 0 <= round_nearest_even m l.
Proof.
  intros H. destruct l as [|[]]; simpl; try lia.
  destruct (Z.even m); lia.
Qed.

Lemma binary_round_aux_signed s m e l :
  0 <= m -> signed s (binary_round_aux prec emax s m e l).
Proof.
  intros H. unfold binary_round_aux.
  pose proof (shr_fexp_nonneg m e l H) as H1.
  destruct (shr_fexp prec emax m e l) as [mrs' e'] eqn:E1. simpl in H1.
  pose proof (shr_fexp_nonneg _ e' loc_Exact
                (round_nearest_even_nonneg _ (loc_of_shr_record mrs') H1)) as H2.
  destruct (shr_fexp prec emax _ e' loc_Exact) as [mrs'' e''] eqn:E2.
  simpl in H2.
  destruct (shr_m mrs'') as [|q|q]; simpl; try reflexivity; try lia.
  destruct (e'' <=? _); reflexivity.
Qed.

Lemma binary_round_signed s m e : signed s (binary_round prec emax s m e).
Proof.
  unfold binary_round.
  destruct (shl_align m e _) as [mz ez].
  apply binary_round_aux_signed. lia.
Qed.

Lemma binary_normalize_signed z e :
  signed (z <? 0) (binary_normalize prec emax z e false).
Proof.
  destruct z; simpl; try reflexivity; apply binary_round_signed.
Qed.

Lemma SFdiv_finite_signed s1 m1 e1 s2 m2 e2 :
  signed (xorb s1 s2)
    (SFdiv prec emax (S754_finite s1 m1 e1) (S754_finite s2 m2 e2)).
Proof.
  unfold SFdiv, SFdiv_core_binary.
  set (s := _ - _ - _).
  set (m' := match s with Z0 => _ | Zpos _ => _ | Zneg _ => _ end).
  assert (Hm : 0 <= m').
  { subst m'. destruct s; try lia. apply Z.shiftl_nonneg. lia. }
  pose proof (Z_div_mod m' (Zpos m2) eq_refl) as Hd.
  destruct (Z.div_eucl m' (Zpos m2)) as [q r].
  apply binary_round_aux_signed.
  destruct Hd as [Hq Hr]. nia.
Qed.

End Rounding.

(** ** The order on numbers *)

Section Comparison.

Lemma cmp_fin_antisym m1 e1 m2 e2 :
  cmp_fin m2 e2 m1 e1 = CompOpp (cmp_fin m1 e1 m2 e2).
Proof.
  unfold cmp_fin. rewrite (Z.min_comm e2 e1). apply Z.compare_antisym.
Qed.

(** Both mantissas may be aligned on any exponent below the two. *)
Lemma cmp_fin_align e m1 e1 m2 e2 :
  e <= e1 -> e <= e2 ->
  cmp_fin m1 e1 m2 e2 = (m1 * 2 ^ (e1 - e) ?= m2 * 2 ^ (e2 - e)).
Proof.
  intros H1 H2. unfold cmp_fin.
  set (e0 := Z.min e1 e2).
  assert (He : e <= e0) by (subst e0; lia).
  assert (H01 : e0 <= e1) by (subst e0; lia).
  assert (H02 : e0 <= e2) by (subst e0; lia).
  replace (e1 - e) with ((e1 - e0) + (e0 - e)) by lia.
  replace (e2 - e) with ((e2 - e0) + (e0 - e)) by lia.
  rewrite !Z.pow_add_r by lia.
  rewrite !Z.mul_assoc.
  apply Zmult_compare_compat_r.
  apply Z.lt_gt, Z.pow_pos_nonneg; lia.
Qed.

Lemma cmp_fin_refl m e : cmp_fin m e m e = Eq.
Proof. unfold cmp_fin. apply Z.compare_refl. Qed.

Lemma cmp_fin_eq_trans m1 e1 m2 e2 m3 e3 :
  cmp_fin m1 e1 m2 e2 = Eq -> cmp_fin m2 e2 m3 e3 = Eq ->
  cmp_fin m1 e1 m3 e3 = Eq.
Proof.
  set (e := Z.min e1 (Z.min e2 e3)).
  rewrite (cmp_fin_align e m1 e1 m2 e2), (cmp_fin_align e m2 e2 m3 e3),
    (cmp_fin_align e m1 e1 m3 e3) by (subst e; lia).
  rewrite !Z.compare_eq_iff. congruence.
Qed.

Lemma xcompare_antisym a b :
  xcompare b a = option_map CompOpp (xcompare a b).
Proof.
  destruct a as [|s1|m1 e1], b as [|s2|m2 e2]; simpl; try reflexivity.
  - destruct s1, s2; reflexivity.
  - destruct s1; reflexivity.
  - destruct s2; reflexivity.
  - f_equal. apply cmp_fin_antisym.
Qed.

Lemma xcompare_refl a : a <> XNaN -> xcompare a a = Some Eq.
Proof.
  destruct a as [|s|m e]; simpl; intros H; try congruence.
  - destruct s; reflexivity.
  - f_equal. apply cmp_fin_refl.
Qed.

Lemma xcompare_eq_trans a b c :
  xcompare a b = Some Eq -> xcompare b c = Some Eq -> xcompare a c = Some Eq.
Proof.
  destruct a as [|s1|m1 e1], b as [|s2|m2 e2], c as [|s3|m3 e3]; simpl;
    try discriminate;
    repeat match goal with s : bool |- _ => destruct s end;
    try discriminate; try reflexivity.
  intros H1 H2. injection H1 as H1. injection H2 as H2.
  f_equal. eapply cmp_fin_eq_trans; eassumption.
Qed.

Lemma xval_of_nan x : xval_of x = XNaN <-> not_nan x = false.
Proof.
  destruct x as [z|[]]; simpl; split; congruence.
Qed.

Lemma py_compare_some x y :
  not_nan x = true -> not_nan y = true -> exists c, py_compare x y = Some c.
Proof.
  intros Hx Hy. unfold py_compare.
  destruct (xval_of x) eqn:Ex.
  { apply xval_of_nan in Ex. congruence. }
  all: destruct (xval_of y) eqn:Ey;
    try (apply xval_of_nan in Ey; congruence); simpl; eauto.
Qed.

Lemma py_compare_antisym x y :
  py_compare y x = option_map CompOpp (py_compare x y).
Proof. apply xcompare_antisym. Qed.

Lemma py_compare_refl x : not_nan x = true -> py_compare x x = Some Eq.
Proof.
  intros H. apply xcompare_refl. intros E. apply xval_of_nan in E. congruence.
Qed.

Lemma py_gt_lt x y : py_gt x y = py_lt y x.
Proof.
  unfold py_gt, py_lt. rewrite (py_compare_antisym x y).
  destruct (py_compare x y) as [[]|]; reflexivity.
Qed.

Lemma py_ge_le x y : py_ge x y = py_le y x.
Proof.
  unfold py_ge, py_le. rewrite (py_compare_antisym x y).
  destruct (py_compare x y) as [[]|]; reflexivity.
Qed.

(** On numbers, [x <= y] is the negation of [y < x]. *)
Lemma py_le_not_lt x y :
  not_nan x = true -> not_nan y = true -> py_le x y = negb (py_lt y x).
Proof.
  intros Hx Hy. destruct (py_compare_some x y Hx Hy) as [c Hc].
  unfold py_le, py_lt. rewrite (py_compare_antisym x y), Hc.
  destruct c; reflexivity.
Qed.

Lemma py_le_refl x : not_nan x = true -> py_le x x = true.
Proof. intros H. unfold py_le. rewrite py_compare_refl; auto. Qed.

Lemma py_lt_irrefl x : py_lt x x = false.
Proof.
  unfold py_lt. destruct (not_nan x) eqn:E.
  - rewrite py_compare_refl; auto.
  - apply xval_of_nan in E. unfold py_compare. rewrite E. reflexivity.
Qed.

Lemma py_lt_le x y : py_lt x y = true -> py_le x y = true.
Proof. unfold py_lt, py_le. destruct (py_compare x y) as [[]|]; auto. Qed.

End Comparison.

(** ** Conversions, rounding and subtraction *)

Section Arithmetic.

Lemma signed_not_inf_finite s f :
  signed s f -> is_inf f = false -> is_finite f = true.
Proof. destruct f; simpl; intros; try reflexivity; try discriminate; contradiction. Qed.

Lemma finite_not_nan x : finite_num x = true -> not_nan x = true.
Proof. destruct x as [z|[]]; simpl; auto. Qed.

Lemma cmp_fin_zero m e : cmp_fin 0 0 m e = (0 ?= m).
Proof.
  unfold cmp_fin. rewrite Z.mul_0_l.
  rewrite <- (Z.mul_0_l (2 ^ (e - Z.min 0 e))).
  symmetry. apply Zmult_compare_compat_r.
  apply Z.lt_gt, Z.pow_pos_nonneg; lia.
Qed.

Lemma signed_false_nonneg f : signed false f -> py_le (Int 0) (Flt f) = true.
Proof.
  destruct f as [s|s| |s m e]; simpl; intros H; try contradiction; subst;
    try reflexivity.
  unfold py_le, py_compare; simpl. rewrite cmp_fin_zero. reflexivity.
Qed.

Lemma nonneg_float_cases f :
  py_le (Int 0) (Flt f) = true -> is_zero f = true \/ signed false f.
Proof.
  destruct f as [s|s| |s m e]; simpl; auto; unfold py_le, py_compare; simpl.
  - destruct s; auto; discriminate.
  - rewrite cmp_fin_zero. destruct s; auto; discriminate.
Qed.

Lemma positive_float_cases x :
  py_gt x (Int 0) = true ->
  match x with
  | Int z => 0 < z
  | Flt (S754_finite false _ _) | Flt (S754_infinity false) => True
  | _ => False
  end.
Proof.
  rewrite py_gt_lt. unfold py_lt, py_compare.
  destruct x as [z|[s|s| |s m e]]; simpl; try discriminate;
    try rewrite cmp_fin_zero.
  - destruct (Z.compare_spec 0 z); try discriminate. auto.
  - destruct s; auto; discriminate.
  - destruct s; auto; discriminate.
Qed.

Lemma nonneg_int z : py_le (Int 0) (Int z) = true <-> 0 <= z.
Proof.
  unfold py_le, py_compare; simpl. rewrite cmp_fin_zero.
  destruct (Z.compare_spec 0 z).
  - split; auto; lia.
  - split; auto; lia.
  - split; [discriminate | intros; exfalso; lia].
Qed.

Lemma py_float_int_signed z f :
  py_float (Int z) = Ok f -> signed (z <? 0) f /\ is_finite f = true.
Proof.
  simpl. pose proof (binary_normalize_signed z 0) as H.
  destruct (is_inf _) eqn:E; try discriminate.
  intros [= <-]. split; auto. eapply signed_not_inf_finite; eauto.
Qed.

Lemma py_float_finite x f :
  finite_num x = true -> py_float x = Ok f -> is_finite f = true.
Proof.
  destruct x as [z|g]; simpl finite_num; intros H E.
  - apply py_float_int_signed in E. tauto.
  - simpl in E. congruence.
Qed.

Lemma py_round1_finite x y :
  finite_num x = true -> py_round1 x = Ok y -> finite_num y = true.
Proof.
  destruct x as [z|[s|s| |s m e]]; simpl; try discriminate;
    try (intros _ [= <-]; reflexivity).
  intros _. destruct (tenths m e) as [|k|k]; try (intros [= <-]; reflexivity).
  pose proof (SFdiv_finite_signed s k 0 false 10 0) as H.
  destruct (is_inf _) eqn:E; try discriminate.
  intros [= <-]. simpl. eapply signed_not_inf_finite; eauto.
Qed.

Lemma one_decimal_finite x q :
  finite_num x = true -> one_decimal x = Ok q -> is_finite q = true.
Proof.
  unfold one_decimal. intros H. destruct (py_round1 x) as [y|] eqn:E;
    simpl; try discriminate.
  apply (py_float_finite y). eapply py_round1_finite; eauto.
Qed.

Lemma one_decimal_nonneg x q :
  py_le (Int 0) x = true -> one_decimal x = Ok q ->
  py_le (Int 0) (Flt q) = true.
Proof.
  unfold one_decimal. destruct x as [z|f]; simpl py_round1; cbn [bind].
  - intros H E. apply py_float_int_signed in E. destruct E as [E _].
    apply signed_false_nonneg.
    replace (z <? 0) with false in E; auto.
    symmetry. apply Z.ltb_ge. apply nonneg_int, H.
  - intros H. destruct (nonneg_float_cases f H) as [Hz|Hs].
    + destruct f; try discriminate. simpl. intros [= <-]. exact H.
    + destruct f as [s|s| |s m e]; simpl in Hs; try contradiction; subst;
        simpl; try (intros [= <-]; exact H).
      destruct (tenths m e) as [|k|k]; simpl; try (intros [= <-]; reflexivity).
      pose proof (SFdiv_finite_signed false k 0 false 10 0) as Hd.
      destruct (is_inf _); simpl; try discriminate.
      intros [= <-]. apply signed_false_nonneg. exact Hd.
Qed.

Lemma SFsub_not_nan f g :
  is_nan f = false -> is_finite g = true ->
  is_nan (SFsub prec emax f g) = false.
Proof.
  destruct f as [s1|s1| |s1 m1 e1], g as [s2|s2| |s2 m2 e2]; simpl;
    try discriminate; intros _ _; try reflexivity.
  - destruct s1, s2; reflexivity.
  - match goal with |- is_nan (binary_normalize _ _ ?z ?e _) = false =>
      pose proof (binary_normalize_signed z e) as H;
      destruct (binary_normalize prec emax z e false)
    end; simpl in *; auto; contradiction.
Qed.

Lemma not_nan_flt f : not_nan (Flt f) = negb (is_nan f).
Proof. destruct f; reflexivity. Qed.

Lemma py_sub_not_nan r f r' :
  not_nan r = true -> is_finite f = true ->
  py_sub r (Flt f) = Ok r' -> not_nan r' = true.
Proof.
  intros Hr Hf. destruct r as [z|g]; simpl.
  - pose proof (binary_normalize_signed z 0) as H.
    destruct (is_inf _) eqn:E; simpl; try discriminate.
    intros [= <-]. rewrite not_nan_flt, SFsub_not_nan; auto.
    destruct (binary_normalize prec emax z 0 false); simpl in *; auto.
    contradiction.
  - intros [= <-]. rewrite not_nan_flt in *. rewrite SFsub_not_nan; auto.
    destruct (is_nan g); auto.
Qed.

Lemma int_truediv_finite a b q :
  py_truediv (Int a) (Int b) = Ok q ->
  exists f, q = Flt f /\ is_finite f = true
            /\ (0 <= a -> 0 < b -> py_le (Int 0) q = true).
Proof.
  simpl. destruct (b =? 0) eqn:Eb; try discriminate.
  apply Z.eqb_neq in Eb.
  destruct (is_inf _) eqn:Ei; try discriminate.
  intros [= <-]. eexists; split; [reflexivity|].
  destruct b as [|pb|pb]; try lia; destruct a as [|pa|pa]; cbn [Z2SF] in *;
    try (split; [reflexivity | intros; try lia; reflexivity]).
  all: match type of Ei with
       | is_inf (SFdiv _ _ (S754_finite ?s1 ?m1 _) (S754_finite ?s2 ?m2 _)) = _ =>
           pose proof (SFdiv_finite_signed s1 m1 0 s2 m2 0) as Hs
       end.
  all: split; [eapply signed_not_inf_finite; eauto | intros; try lia].
  apply signed_false_nonneg, Hs.
Qed.

Lemma float_truediv_positive g e :
  positive_float g = true -> positive_float e = true ->
  exists q, py_truediv (Flt g) (Flt e) = Ok (Flt q) /\ signed false q.
Proof.
  destruct g as [| | |[] mg eg]; try discriminate.
  destruct e as [| | |[] me ee]; try discriminate.
  intros _ _. eexists; split; [reflexivity|].
  apply (SFdiv_finite_signed false mg eg false me ee).
Qed.

Lemma signed_not_nan s f : signed s f -> not_nan (Flt f) = true.
Proof. destruct f; simpl; auto. Qed.

End Arithmetic.

(** ** The number model on known doubles

    Values CPython prints, with their bits ([float.hex]). *)

(** [0.1 == 0x1.999999999999ap-4] *)
Example literal_one_tenth :
  dec 1 1 = S754_finite false 7205759403792794 (-56).
Proof. vm_compute. reflexivity. Qed.

(** [0.9 - 0.7 == 0.20000000000000007 == 0x1.999999999999cp-3] *)
Example subtraction_is_rounded :
  py_sub (Flt (dec 9 1)) (Flt (dec 7 1))
  = Ok (Flt (S754_finite false 7205759403792796 (-55))).
Proof. vm_compute. reflexivity. Qed.

(** [round(2.675, 1) == 2.7], [round(0.25, 1) == 0.2] (a tie, to even),
    [round(0.35, 1) == 0.3] (the double 0.35 is below the decimal),
    [round(1.05, 1) == 1.1] (the double 1.05 is above it). *)
Example round_examples :
  py_round1 (Flt (dec 2675 3)) = Ok (Flt (dec 27 1))
  /\ py_round1 (Flt (dec 25 2)) = Ok (Flt (dec 2 1))
  /\ py_round1 (Flt (dec 35 2)) = Ok (Flt (dec 3 1))
  /\ py_round1 (Flt (dec 105 2)) = Ok (Flt (dec 11 1)).
Proof. repeat split; vm_compute; reflexivity. Qed.

(** [float(2**53 + 1) == float(2**53)] (a tie, to even),
    [(2**53 + 3) / 1 == float(2**53 + 4)], [float(10**400)] raises
    [OverflowError], [1 / 0] raises [ZeroDivisionError]. *)
Example int_conversion_examples :
  py_float (Int (2 ^ 53 + 1)) = py_float (Int (2 ^ 53))
  /\ (f <- py_float (Int (2 ^ 53 + 4));; Ok (Flt f))
     = py_truediv (Int (2 ^ 53 + 3)) (Int 1)
  /\ py_float (Int (10 ^ 400)) = Raise OverflowError
  /\ py_truediv (Int 1) (Int 0) = Raise ZeroDivisionError.
Proof. repeat split; vm_compute; reflexivity. Qed.

(** [3 * 10 / 100 == 0.3] and [3 * (10 / 100) == 0.30000000000000004]:
    the order of the two operations of [calculate_pmax] shows in the
    last bit. *)
Example wind_scaling_order :
  (m <- py_mul (Int 3) (Int 10);; py_truediv m (Int 100))
  = Ok (Flt (S754_finite false 5404319552844595 (-54)))
  /\ (q <- py_truediv (Int 10) (Int 100);; py_mul (Int 3) q)
     = Ok (Flt (S754_finite false 5404319552844596 (-54))).
Proof. split; vm_compute; reflexivity. Qed.

(** ** The sort *)

Section Sort.

Context {A : Type}.
Variable key : A -> num.

Lemma insert_by_perm x l : Permutation (insert_by key x l) (x :: l).
Proof.
  induction l as [|y l IH]; simpl.
  - apply Permutation_refl.
  - destruct (py_lt (key y) (key x)).
    + eapply perm_trans; [apply perm_skip, IH | apply perm_swap].
    + apply Permutation_refl.
Qed.

Lemma sorted_perm l : Permutation (sorted key l) l.
Proof.
  induction l as [|x l IH]; simpl.
  - apply perm_nil.
  - eapply perm_trans; [apply insert_by_perm | apply perm_skip, IH].
Qed.

Lemma insert_by_hd y x l :
  key_le key y x -> HdRel (key_le key) y l ->
  HdRel (key_le key) y (insert_by key x l).
Proof.
  intros Hyx Hl. destruct l as [|z l]; simpl.
  - constructor. exact Hyx.
  - destruct (py_lt (key z) (key x)); constructor; auto.
    inversion Hl; auto.
Qed.

Lemma insert_by_sorted x l :
  not_nan (key x) = true -> Forall (fun a => not_nan (key a) = true) l ->
  Sorted (key_le key) l -> Sorted (key_le key) (insert_by key x l).
Proof.
  intros Hx Hn Hs. induction l as [|y l IH]; simpl.
  - repeat constructor.
  - inversion Hn as [|? ? Hy Hn']; subst.
    inversion Hs as [|? ? Hs' Hhd]; subst.
    destruct (py_lt (key y) (key x)) eqn:E.
    + constructor; auto.
      apply insert_by_hd; auto. apply py_lt_le, E.
    + constructor; auto. constructor.
      unfold key_le. rewrite py_le_not_lt, E; auto.
Qed.

Lemma sorted_sorted l :
  Forall (fun a => not_nan (key a) = true) l ->
  Sorted (key_le key) (sorted key l).
Proof.
  induction 1 as [|x l Hx Hl IH]; simpl.
  - constructor.
  - apply insert_by_sorted; auto.
    eapply Permutation_Forall; [apply Permutation_sym, sorted_perm | exact Hl].
Qed.

(** Stability: within one class of equal keys the order is the input's. *)
Lemma same_cost_lt c x y :
  same_cost c (key x) = true -> same_cost c (key y) = true ->
  py_lt (key y) (key x) = false.
Proof.
  unfold same_cost, py_lt, py_compare. intros Hx Hy.
  destruct (xcompare (xval_of (key x)) (xval_of c)) as [[]|] eqn:Ex;
    try discriminate.
  destruct (xcompare (xval_of (key y)) (xval_of c)) as [[]|] eqn:Ey;
    try discriminate.
  assert (E : xcompare (xval_of c) (xval_of (key x)) = Some Eq).
  { rewrite xcompare_antisym, Ex. reflexivity. }
  rewrite (xcompare_eq_trans _ _ _ Ey E). reflexivity.
Qed.

Lemma insert_by_stable c x l :
  filter (fun a => same_cost c (key a)) (insert_by key x l)
  = filter (fun a => same_cost c (key a)) (x :: l).
Proof.
  induction l as [|y l IH]; [reflexivity|].
  cbn [insert_by]. destruct (py_lt (key y) (key x)) eqn:E; [|reflexivity].
  cbn [filter] in *. rewrite IH.
  destruct (same_cost c (key x)) eqn:Ex, (same_cost c (key y)) eqn:Ey;
    try reflexivity.
  rewrite (same_cost_lt c x y Ex Ey) in E. discriminate.
Qed.

Lemma sorted_stable c l :
  filter (fun a => same_cost c (key a)) (sorted key l)
  = filter (fun a => same_cost c (key a)) l.
Proof.
  induction l as [|x l IH]; [reflexivity|].
  cbn [sorted]. rewrite insert_by_stable. cbn [filter]. rewrite IH. reflexivity.
Qed.

End Sort.

(** ** The loop that derives cost and capacity *)

Section Derive.

Variable self : ProductionPlanCalculator.

Lemma store_set_eq h l o : store_set h l o l = o.
Proof. unfold store_set. rewrite Nat.eqb_refl. reflexivity. Qed.

Lemma store_set_ne h l o l' : l' <> l -> store_set h l o l' = h l'.
Proof.
  intros H. unfold store_set. apply Nat.eqb_neq in H. rewrite H. reflexivity.
Qed.

Lemma same_inputs_refl o : same_inputs o o.
Proof. repeat split. Qed.

Lemma same_inputs_sym o o' : same_inputs o o' -> same_inputs o' o.
Proof. unfold same_inputs. intuition congruence. Qed.

Lemma same_inputs_trans o1 o2 o3 :
  same_inputs o1 o2 -> same_inputs o2 o3 -> same_inputs o1 o3.
Proof. unfold same_inputs. intuition congruence. Qed.

Lemma calculate_cost_per_MWH_ext o o' :
  same_inputs o o' ->
  calculate_cost_per_MWH self o = calculate_cost_per_MWH self o'.
Proof.
  intros (_ & Ht & He & _). unfold calculate_cost_per_MWH.
  rewrite Ht, He. reflexivity.
Qed.

Lemma calculate_pmax_ext o o' :
  same_inputs o o' -> pmax o = pmax o' ->
  calculate_pmax self o = calculate_pmax self o'.
Proof.
  intros (_ & Ht & _) Hp. unfold calculate_pmax. rewrite Ht, Hp. reflexivity.
Qed.

(** One iteration of the loop, on the object at [l]. *)
Lemma derive_step_inputs h l c m l' :
  same_inputs
    (store_set (store_set h l (set_cost_per_MWH (h l) c)) l
       (set_pmax (store_set h l (set_cost_per_MWH (h l) c) l) m) l')
    (h l').
Proof.
  destruct (Nat.eq_dec l' l) as [->|N].
  - rewrite !store_set_eq. repeat split.
  - rewrite !store_set_ne by exact N. apply same_inputs_refl.
Qed.

Lemma derive_loop_frame plants : forall h l,
  same_inputs (fst (derive_loop self plants h) l) (h l)
  /\ (~ In l plants -> fst (derive_loop self plants h) l = h l).
Proof.
  induction plants as [|l0 rest IH]; intros h l; simpl.
  - split; [apply same_inputs_refl | reflexivity].
  - destruct (calculate_cost_per_MWH self (h l0)) as [c|e]; simpl.
    2: { split; [apply same_inputs_refl | reflexivity]. }
    destruct (calculate_pmax self _) as [m|e]; simpl.
    + destruct (IH (store_set (store_set h l0 (set_cost_per_MWH (h l0) c)) l0
                     (set_pmax (store_set h l0 (set_cost_per_MWH (h l0) c) l0) m))
                   l) as [I1 I2].
      split.
      * eapply same_inputs_trans; [exact I1 | apply derive_step_inputs].
      * intros N. rewrite I2 by tauto.
        rewrite !store_set_ne by (intros ->; tauto). reflexivity.
    + split.
      * destruct (Nat.eq_dec l l0) as [->|N].
        -- rewrite store_set_eq. repeat split.
        -- rewrite store_set_ne by exact N. apply same_inputs_refl.
      * intros N. rewrite store_set_ne by (intros ->; tauto). reflexivity.
Qed.

(** After a loop that ran to its end, every object of the list holds its
    derived cost. *)
Lemma derive_loop_cost_set plants : forall h h',
  derive_loop self plants h = (h', Ok tt) ->
  forall l, In l plants ->
  exists c, calculate_cost_per_MWH self (h l) = Ok c
            /\ cost_per_MWH (h' l) = Some c.
Proof.
  induction plants as [|l0 rest IH]; intros h h' E l Hin; [destruct Hin|].
  simpl in E.
  destruct (calculate_cost_per_MWH self (h l0)) as [c|e] eqn:Ec;
    try discriminate.
  destruct (calculate_pmax self _) as [m|e] eqn:Em; try discriminate.
  set (h2 := store_set _ l0 (set_pmax _ m)) in E.
  destruct (in_dec Nat.eq_dec l rest) as [Hr|Hr].
  - destruct (IH _ _ E l Hr) as (c' & E1 & E2).
    exists c'. split; auto. rewrite <- E1.
    apply calculate_cost_per_MWH_ext, same_inputs_sym.
    subst h2. apply derive_step_inputs.
  - destruct Hin as [->|Hin]; [|contradiction].
    exists c. split; auto.
    pose proof (derive_loop_frame rest h2 l) as [_ F].
    rewrite E in F. simpl in F. rewrite F by exact Hr.
    subst h2. rewrite !store_set_eq. reflexivity.
Qed.

(** On a list of distinct objects, each one's capacity is derived from
    the [pmax] the caller supplied. *)
Lemma derive_loop_pmax plants : forall h h',
  derive_loop self plants h = (h', Ok tt) -> NoDup plants ->
  forall l, In l plants ->
  exists m, calculate_pmax self (h l) = Ok m /\ pmax (h' l) = m.
Proof.
  induction plants as [|l0 rest IH]; intros h h' E ND l Hin; [destruct Hin|].
  simpl in E. inversion ND as [|? ? Hn ND']; subst.
  destruct (calculate_cost_per_MWH self (h l0)) as [c|e] eqn:Ec;
    try discriminate.
  destruct (calculate_pmax self _) as [m|e] eqn:Em; try discriminate.
  set (h2 := store_set _ l0 (set_pmax _ m)) in E.
  destruct Hin as [->|Hin].
  - exists m. split.
    + rewrite <- Em. rewrite store_set_eq.
      apply calculate_pmax_ext; repeat split.
    + pose proof (derive_loop_frame rest h2 l) as [_ F].
      rewrite E in F. simpl in F. rewrite F by exact Hn.
      subst h2. rewrite !store_set_eq. reflexivity.
  - destruct (IH _ _ E ND' l Hin) as (m' & E1 & E2).
    exists m'. split; auto. rewrite <- E1.
    assert (N : l <> l0) by (intros ->; contradiction).
    subst h2. rewrite !store_set_ne by exact N. reflexivity.
Qed.

End Derive.

(** ** The allocation loop *)

Section Allocation.

Lemma py_le_zero_gt r :
  not_nan r = true -> py_le r (Int 0) = negb (py_gt r (Int 0)).
Proof. intros H. rewrite py_gt_lt. apply py_le_not_lt; auto. Qed.

(** Below a finite capacity and above zero: a finite number. *)
Lemma below_finite r c :
  py_gt r (Int 0) = true -> py_lt r c = true -> finite_num c = true ->
  finite_num r = true.
Proof.
  intros Hp Hl Hc. apply positive_float_cases in Hp.
  destruct r as [z|[s|s| |s m e]]; try reflexivity; try contradiction.
  destruct s; try contradiction.
  unfold py_lt, py_compare in Hl.
  destruct c as [z|[s|s| |s m e]]; simpl in *; discriminate.
Qed.

(** With numbers on both sides, the third test of the loop holds
    whenever the first two fail. *)
Lemma third_test r lo c :
  not_nan r = true -> not_nan c = true ->
  py_lt r (Int lo) = false -> py_ge r c = false ->
  py_le (Int lo) r && py_lt r c = true.
Proof.
  intros Hr Hc H1 H2.
  rewrite (py_le_not_lt (Int lo) r), H1 by auto.
  rewrite py_ge_le, (py_le_not_lt c r) in H2 by auto.
  destruct (py_lt r c); auto.
Qed.

Lemma views_of_cons h l rest units :
  views_of h (l :: rest) = Some units ->
  exists c us, pmax (h l) = Some c /\ views_of h rest = Some us
    /\ units = {| u_name := name (h l); u_min := pmin (h l); u_cap := c |} :: us.
Proof.
  simpl. unfold view_of. destruct (pmax (h l)) as [c|]; try discriminate.
  destruct (views_of h rest) as [us|]; try discriminate.
  intros [= <-]. eauto.
Qed.

(** The loop of [get_production_plan] computes [dispatch]. *)
Lemma allocate_loop_dispatch h : forall plants units st,
  views_of h plants = Some units ->
  Forall (fun u => finite_num (u_cap u) = true) units ->
  not_nan (remaining_load st) = true ->
  (st' <- allocate_loop h plants st;; Ok (production_plan st'))
  = (items <- dispatch (remaining_load st) units;;
     Ok (production_plan st ++ items)).
Proof.
  induction plants as [|l rest IH]; intros units st Hv Hf Hr.
  - injection Hv as <-. simpl. rewrite app_nil_r. reflexivity.
  - apply views_of_cons in Hv. destruct Hv as (c & us & Hc & Hus & ->).
    inversion Hf as [|? ? Hfc Hf']; subst. simpl in Hfc.
    cbn [allocate_loop dispatch u_name u_min u_cap].
    unfold allocate_step. rewrite (py_le_zero_gt _ Hr).
    destruct (py_gt (remaining_load st) (Int 0)) eqn:Hgt; cbn [negb bind].
    + destruct (py_lt (remaining_load st) (Int (pmin (h l)))) eqn:Hlt;
        [reflexivity|].
      rewrite Hc. cbn [as_num bind].
      assert (Step : forall x f,
                finite_num x = true -> one_decimal x = Ok f ->
                (st' <- (st1 <- (r' <- py_sub (remaining_load st) (Flt f);;
                                 Ok {| remaining_load := r';
                                       power := Some f;
                                       production_plan :=
                                         production_plan st
                                         ++ [{| item_name := name (h l);
                                                p := f |}] |});;
                         allocate_loop h rest st1);;
                 Ok (production_plan st'))
                = (items <- (r <- py_sub (remaining_load st) (Flt f);;
                             items0 <- dispatch r us;;
                             Ok ({| item_name := name (h l); p := f |}
                                   :: items0));;
                   Ok (production_plan st ++ items))).
      { intros x f Hx Hd.
        destruct (py_sub (remaining_load st) (Flt f)) as [r'|e] eqn:Hs;
          [|reflexivity].
        cbn [bind]. rewrite IH with (units := us); auto.
        - cbn [remaining_load production_plan].
          destruct (dispatch r' us); cbn [bind]; [|reflexivity].
          rewrite <- app_assoc. reflexivity.
        - cbn [remaining_load].
          eapply py_sub_not_nan; [exact Hr | | exact Hs].
          eapply one_decimal_finite; eauto. }
      destruct (py_ge (remaining_load st) c) eqn:Hge.
      * specialize (Step c). unfold one_decimal in *.
        destruct (py_round1 c) as [y|e]; [|reflexivity]. cbn [bind] in *.
        destruct (py_float y) as [f|e]; [|reflexivity]. cbn [bind] in *.
        apply Step; auto.
      * rewrite third_test; auto using finite_not_nan.
        assert (Hfin : finite_num (remaining_load st) = true).
        { eapply below_finite; eauto.
          pose proof (third_test _ (pmin (h l)) c Hr
                        (finite_not_nan _ Hfc) Hlt Hge) as T.
          apply andb_true_iff in T. tauto. }
        specialize (Step (remaining_load st)). unfold one_decimal in *.
        destruct (py_round1 (remaining_load st)) as [y|e]; [|reflexivity].
        cbn [bind] in *.
        destruct (py_float y) as [f|e]; [|reflexivity]. cbn [bind] in *.
        apply Step; auto.
    + rewrite IH with (units := us); auto.
      cbn [remaining_load production_plan].
      destruct (dispatch (remaining_load st) us); cbn [bind]; [|reflexivity].
      rewrite <- app_assoc. reflexivity.
Qed.

(** Every entry of a plan that [dispatch] returns is the one-decimal
    rounding of a quantity between zero and the unit's capacity. *)
Lemma dispatch_bounds : forall units r items,
  Forall usable_cap units -> not_nan r = true ->
  dispatch r units = Ok items -> Forall2 entry_ok units items.
Proof.
  induction units as [|u us IH]; intros r items Hu Hr; cbn [dispatch].
  - intros [= <-]. constructor.
  - inversion Hu as [|? ? [Hfc Hpc] Hu']; subst.
    assert (Next : forall x f r',
              py_le (Int 0) x = true -> py_le x (u_cap u) = true ->
              finite_num x = true -> one_decimal x = Ok f ->
              py_sub r (Flt f) = Ok r' ->
              (items0 <- dispatch r' us;;
               Ok ({| item_name := u_name u; p := f |} :: items0)) = Ok items ->
              Forall2 entry_ok (u :: us) items).
    { intros x f r' H0 H1 Hx Hd Hs.
      destruct (dispatch r' us) as [items0|] eqn:Hds; try discriminate.
      intros [= <-]. constructor.
      - repeat split.
        + eapply one_decimal_nonneg; eauto.
        + exists x. auto.
      - apply (IH r' items0); auto.
        eapply py_sub_not_nan; [exact Hr | | exact Hs].
        eapply one_decimal_finite; eauto. }
    destruct (py_le r (Int 0)) eqn:Hle.
    + destruct (dispatch r us) as [items0|] eqn:Hds; try discriminate.
      intros [= <-]. constructor; [|apply (IH r items0); auto].
      repeat split. exists (Int 0). repeat split; auto.
    + destruct (py_lt r (Int (u_min u))) eqn:Hlt; try discriminate.
      assert (Hgt : py_gt r (Int 0) = true).
      { rewrite py_le_zero_gt in Hle by auto.
        destruct (py_gt r (Int 0)); auto. }
      destruct (py_ge r (u_cap u)) eqn:Hge.
      * destruct (one_decimal (u_cap u)) as [f|] eqn:Hd; try discriminate.
        cbn [bind].
        destruct (py_sub r (Flt f)) as [r'|] eqn:Hs; try discriminate.
        cbn [bind]. apply (Next (u_cap u) f r'); auto.
        apply py_le_refl, finite_not_nan, Hfc.
      * pose proof (third_test r (u_min u) (u_cap u) Hr
                      (finite_not_nan _ Hfc) Hlt Hge) as T.
        apply andb_true_iff in T. destruct T as [_ T].
        destruct (one_decimal r) as [f|] eqn:Hd; try discriminate.
        cbn [bind].
        destruct (py_sub r (Flt f)) as [r'|] eqn:Hs; try discriminate.
        cbn [bind]. apply (Next r f r'); auto.
        -- apply py_lt_le. rewrite <- py_gt_lt. exact Hgt.
        -- apply py_lt_le, T.
        -- eapply below_finite; eauto.
Qed.

(** The names of the plan are the names of the objects, in the order of
    the loop. *)
Lemma allocate_loop_names h : forall plants st st',
  allocate_loop h plants st = Ok st' ->
  map item_name (production_plan st')
  = map item_name (production_plan st) ++ map (fun l => name (h l)) plants.
Proof.
  induction plants as [|l rest IH]; intros st st'; cbn [allocate_loop].
  - intros [= <-]. rewrite app_nil_r. reflexivity.
  - destruct (allocate_step (h l) st) as [st1|] eqn:E; try discriminate.
    cbn [bind]. intros H. rewrite (IH _ _ H).
    assert (N : map item_name (production_plan st1)
                = map item_name (production_plan st) ++ [name (h l)]).
    { unfold allocate_step in E.
      destruct (py_gt _ _).
      - destruct (py_lt _ _); try discriminate.
        destruct (as_num _); try discriminate. cbn [bind] in E.
        match type of E with
        | (pw <- ?e;; _) = _ => destruct e as [pw|]; try discriminate
        end.
        cbn [bind] in E. destruct pw as [f|]; try discriminate.
        cbn [bind] in E. destruct (py_sub _ _); try discriminate.
        injection E as <-. cbn [production_plan].
        rewrite map_app. reflexivity.
      - injection E as <-. cbn [production_plan].
        rewrite map_app. reflexivity. }
    rewrite N, <- app_assoc. reflexivity.
Qed.

End Allocation.

(** ** Validated requests *)

Section Validated.

Variable self : ProductionPlanCalculator.
Variable h : store.
Hypothesis valid : validated self h = true.

Lemma distinct_NoDup (l : list loc) : distinct l = true -> NoDup l.
Proof.
  induction l as [|x l IH]; simpl; intros H; constructor;
    apply andb_true_iff in H; destruct H as [H1 H2]; auto.
  intros Hin. apply negb_true_iff in H1.
  assert (E : existsb (Nat.eqb x) l = true).
  { apply existsb_exists. exists x. split; auto. apply Nat.eqb_refl. }
  congruence.
Qed.

Lemma validated_fuels_ok : validated_fuels (self_fuels self) = true.
Proof.
  unfold validated in valid. repeat (apply andb_true_iff in valid as [valid ?]).
  assumption.
Qed.

Lemma validated_NoDup : NoDup (self_powerplants self).
Proof.
  unfold validated in valid. repeat (apply andb_true_iff in valid as [valid ?]).
  apply distinct_NoDup. assumption.
Qed.

Lemma validated_unit_ok l :
  In l (self_powerplants self) -> validated_unit (h l) = true.
Proof.
  unfold validated in valid. repeat (apply andb_true_iff in valid as [valid ?]).
  intros Hin.
  match goal with H : forallb _ _ = true |- _ =>
    rewrite forallb_forall in H; apply (H l Hin) end.
Qed.

Lemma validated_unit_pmax o :
  validated_unit o = true -> exists n, pmax o = Some (Int n) /\ 0 <= n.
Proof.
  unfold validated_unit. intros H. apply andb_true_iff in H as [_ H].
  destruct (pmax o) as [[n|f]|]; try discriminate.
  exists n. split; auto. apply Z.leb_le, H.
Qed.

Lemma validated_cost_not_nan o c :
  validated_unit o = true -> calculate_cost_per_MWH self o = Ok c ->
  not_nan c = true.
Proof.
  intros Hu. pose proof validated_fuels_ok as Hf.
  unfold validated_fuels in Hf. repeat (apply andb_true_iff in Hf as [Hf ?]).
  unfold validated_unit in Hu. repeat (apply andb_true_iff in Hu as [Hu ?]).
  unfold calculate_cost_per_MWH.
  destruct (String.eqb (type o) "gasfired").
  { destruct (float_truediv_positive (gas (self_fuels self)) (efficiency o))
      as (q & -> & Hq); auto.
    intros [= <-]. eapply signed_not_nan, Hq. }
  destruct (String.eqb (type o) "turbojet").
  { destruct (float_truediv_positive (kerosine (self_fuels self)) (efficiency o))
      as (q & -> & Hq); auto.
    intros [= <-]. eapply signed_not_nan, Hq. }
  destruct (String.eqb (type o) "windturbine"); try discriminate.
  intros [= <-]. reflexivity.
Qed.

Lemma validated_cap o m :
  validated_unit o = true -> calculate_pmax self o = Ok m ->
  exists c, m = Some c /\ finite_num c = true /\ py_le (Int 0) c = true.
Proof.
  intros Hu. pose proof validated_fuels_ok as Hf.
  unfold validated_fuels in Hf. repeat (apply andb_true_iff in Hf as [Hf ?]).
  destruct (validated_unit_pmax o Hu) as (n & Hn & Hn0).
  unfold calculate_pmax. rewrite Hn.
  destruct (String.eqb (type o) "windturbine").
  - cbn [as_num bind py_mul].
    destruct (py_truediv (Int (n * wind (self_fuels self))) (Int 100))
      as [q|] eqn:E; try discriminate.
    intros [= <-]. apply int_truediv_finite in E.
    destruct E as (f & -> & Hfin & Hpos).
    exists (Flt f). repeat split; auto.
    apply Hpos; [|lia]. apply Z.mul_nonneg_nonneg; auto. apply Z.leb_le. auto.
  - destruct (_ || _); try discriminate.
    intros [= <-]. exists (Int n). repeat split. apply nonneg_int, Hn0.
Qed.

(** What the loop leaves in the objects, read as ranked units. *)
Lemma derived_views h' :
  derive_loop self (self_powerplants self) h = (h', Ok tt) ->
  forall plants, incl plants (self_powerplants self) ->
  exists units, views_of h' plants = Some units
    /\ Forall2 (effective_unit self h) plants units
    /\ Forall usable_cap units.
Proof.
  intros E. induction plants as [|l rest IH]; intros Hin.
  - exists []. repeat split; constructor.
  - destruct IH as (us & Hv & He & Hc).
    { intros x Hx. apply Hin. right. exact Hx. }
    assert (Hl : In l (self_powerplants self)) by (apply Hin; left; auto).
    destruct (derive_loop_pmax self _ _ _ E validated_NoDup l Hl)
      as (m & Hm & Hp).
    destruct (validated_cap _ _ (validated_unit_ok l Hl) Hm)
      as (c & -> & Hfin & Hpos).
    pose proof (derive_loop_frame self (self_powerplants self) h l) as [F _].
    rewrite E in F. cbn [fst] in F. destruct F as (Fn & _ & _ & Fm).
    exists ({| u_name := name (h' l); u_min := pmin (h' l); u_cap := c |} :: us).
    split; [|split].
    + cbn [views_of]. unfold view_of. rewrite Hp, Hv. reflexivity.
    + constructor; auto. repeat split; auto.
    + constructor; auto. split; auto.
Qed.

Lemma derived_keys h' :
  derive_loop self (self_powerplants self) h = (h', Ok tt) ->
  forall l, In l (self_powerplants self) ->
  calculate_cost_per_MWH self (h l) = Ok (key_of h' l)
  /\ not_nan (key_of h' l) = true.
Proof.
  intros E l Hl.
  destruct (derive_loop_cost_set self _ _ _ E l Hl) as (c & Hc & Hk).
  unfold key_of. rewrite Hk. split; auto.
  eapply validated_cost_not_nan; eauto using validated_unit_ok.
Qed.

End Validated.

Section Engine.

Variable self : ProductionPlanCalculator.
Variable h : store.

(** The two outcomes of the ranking, unfolded. *)
Lemma get_sorted_ok plants :
  snd (get_sorted_powerplants_with_pmax_and_cost self h) = Ok plants ->
  derive_loop self (self_powerplants self) h
  = (fst (get_sorted_powerplants_with_pmax_and_cost self h), Ok tt)
  /\ plants
     = sorted (key_of (fst (get_sorted_powerplants_with_pmax_and_cost self h)))
         (self_powerplants self).
Proof.
  unfold get_sorted_powerplants_with_pmax_and_cost.
  destruct (derive_loop self (self_powerplants self) h) as [h' [[]|e]];
    cbn [fst snd]; try discriminate.
  intros [= <-]. auto.
Qed.

Lemma get_production_plan_store :
  fst (get_production_plan self h)
  = fst (get_sorted_powerplants_with_pmax_and_cost self h).
Proof.
  unfold get_production_plan.
  destruct (get_sorted_powerplants_with_pmax_and_cost self h) as [h' [pl|e]];
    reflexivity.
Qed.

Lemma get_production_plan_ok plan :
  snd (get_production_plan self h) = Ok plan ->
  exists plants st,
    snd (get_sorted_powerplants_with_pmax_and_cost self h) = Ok plants
    /\ allocate_loop (fst (get_sorted_powerplants_with_pmax_and_cost self h))
         plants (initial_locals self) = Ok st
    /\ plan = production_plan st.
Proof.
  unfold get_production_plan.
  destruct (get_sorted_powerplants_with_pmax_and_cost self h) as [h' [pl|e]];
    cbn [fst snd]; try discriminate.
  destruct (allocate_loop h' pl _) as [st|e] eqn:E; cbn [bind];
    try discriminate.
  intros [= <-]. eauto.
Qed.

(** The plan is [dispatch] over the ranked units. *)
Lemma plan_is_dispatch plants :
  validated self h = true ->
  snd (get_sorted_powerplants_with_pmax_and_cost self h) = Ok plants ->
  exists ranked,
    Forall2 (effective_unit self h) plants ranked
    /\ Forall usable_cap ranked
    /\ snd (get_production_plan self h)
       = dispatch (Int (self_load self)) ranked.
Proof.
  intros V S. destruct (get_sorted_ok plants S) as [E ->].
  destruct (derived_views self h V _ E
              (sorted (key_of (fst (get_sorted_powerplants_with_pmax_and_cost
                                      self h))) (self_powerplants self)))
    as (ranked & Hv & He & Hc).
  { intros x Hx. eapply Permutation_in; [apply sorted_perm | exact Hx]. }
  exists ranked. repeat split; auto.
  unfold get_production_plan.
  destruct (get_sorted_powerplants_with_pmax_and_cost self h) as [h' [pl|e]];
    cbn [fst snd] in *; try discriminate.
  injection S as ->.
  rewrite (allocate_loop_dispatch h' _ ranked); auto.
  - cbn [remaining_load production_plan app].
    destruct (dispatch _ ranked); reflexivity.
  - eapply Forall_impl; [|exact Hc]. intros u [Hu _]. exact Hu.
Qed.

End Engine.

(** ** The store after a run *)

Lemma get_sorted_store self h :
  fst (get_sorted_powerplants_with_pmax_and_cost self h)
  = fst (derive_loop self (self_powerplants self) h).
Proof.
  unfold get_sorted_powerplants_with_pmax_and_cost.
  destruct (derive_loop self (self_powerplants self) h) as [h' [[]|e]];
    reflexivity.
Qed.

(** The capacity derivation returns the [pmax] of a unit that is not a
    wind turbine, or raises. *)
Lemma calculate_pmax_fuel self o m :
  type o <> "windturbine" -> calculate_pmax self o = Ok m -> m = pmax o.
Proof.
  intros Ht. apply String.eqb_neq in Ht.
  unfold calculate_pmax. rewrite Ht.
  destruct (_ || _); [congruence|discriminate].
Qed.

(** The loop leaves the [pmax] of every object that is not a wind
    turbine as it was, listed or not, whether it ends or raises. *)
Lemma derive_loop_keeps_pmax self : forall plants h l,
  type (h l) <> "windturbine" ->
  pmax (fst (derive_loop self plants h) l) = pmax (h l).
Proof.
  induction plants as [|l0 rest IH]; intros h l Ht; cbn [derive_loop];
    [reflexivity|].
  destruct (calculate_cost_per_MWH self (h l0)) as [c|e]; cbn [fst];
    [|reflexivity].
  rewrite !store_set_eq.
  assert (S1 : forall l',
            type (store_set h l0 (set_cost_per_MWH (h l0) c) l') = type (h l')
            /\ pmax (store_set h l0 (set_cost_per_MWH (h l0) c) l')
               = pmax (h l')).
  { intros l'. destruct (Nat.eq_dec l' l0) as [->|N].
    - rewrite store_set_eq. split; reflexivity.
    - rewrite store_set_ne by exact N. split; reflexivity. }
  destruct (calculate_pmax self (set_cost_per_MWH (h l0) c)) as [m|e] eqn:Em;
    cbn [fst]; [|apply S1].
  rewrite IH.
  - destruct (Nat.eq_dec l l0) as [->|N].
    + rewrite store_set_eq. cbn [set_pmax pmax].
      apply (calculate_pmax_fuel self _ m) in Em; [|exact Ht]. exact Em.
    + rewrite store_set_ne by exact N. apply S1.
  - destruct (Nat.eq_dec l l0) as [->|N].
    + rewrite store_set_eq. exact Ht.
    + rewrite store_set_ne by exact N.
      destruct (S1 l) as [-> _]. exact Ht.
Qed.

(** ** Unknown kinds *)

Lemma unknown_kind_derivations self o :
  kind_of_type (type o) = None ->
  calculate_cost_per_MWH self o = Raise InvalidPlantTypeProvided
  /\ calculate_pmax self o = Raise UnboundLocalError.
Proof.
  unfold kind_of_type, calculate_cost_per_MWH, calculate_pmax.
  destruct (String.eqb (type o) "gasfired"); try discriminate.
  destruct (String.eqb (type o) "turbojet"); try discriminate.
  destruct (String.eqb (type o) "windturbine"); try discriminate.
  auto.
Qed.

Lemma derive_loop_unknown_kind self l post : forall pre h,
  NoDup pre ->
  Forall (fun l' => exists c m,
            calculate_cost_per_MWH self (h l') = Ok c
            /\ calculate_pmax self (h l') = Ok m) pre ->
  kind_of_type (type (h l)) = None ->
  snd (derive_loop self (pre ++ l :: post) h) = Raise InvalidPlantTypeProvided.
Proof.
  induction pre as [|l0 pre IH]; intros h ND Hp Hk; cbn [app derive_loop].
  - destruct (unknown_kind_derivations self (h l) Hk) as [-> _]. reflexivity.
  - inversion ND as [|? ? Hn ND']; subst.
    inversion Hp as [|? ? (c & m & Hc & Hm) Hp']; subst.
    rewrite Hc.
    rewrite (calculate_pmax_ext self _ (h l0)), Hm;
      [|rewrite store_set_eq; repeat split .. ].
    apply IH; auto.
    + rewrite Forall_forall in *. intros l' Hin.
      assert (N : l' <> l0) by (intros ->; contradiction).
      rewrite !store_set_ne by exact N. auto.
    + destruct (derive_step_inputs h l0 c m l) as (_ & -> & _). exact Hk.
Qed.

(** A unit of unknown kind aborts the request with
    [InvalidPlantTypeProvided], wherever it stands, when the units before
    it are distinct objects whose cost and capacity derive. *)
Lemma unknown_kind_aborts self h pre l post :
  self_powerplants self = pre ++ l :: post ->
  NoDup pre ->
  Forall (fun l' => exists c m,
            calculate_cost_per_MWH self (h l') = Ok c
            /\ calculate_pmax self (h l') = Ok m) pre ->
  kind_of_type (type (h l)) = None ->
  snd (get_production_plan self h) = Raise InvalidPlantTypeProvided.
Proof.
  intros E ND Hp Hk.
  pose proof (derive_loop_unknown_kind self l post pre h ND Hp Hk) as D.
  unfold get_production_plan, get_sorted_powerplants_with_pmax_and_cost.
  rewrite E. destruct (derive_loop self (pre ++ l :: post) h) as [h' [[]|e]];
    cbn [snd] in *; congruence.
Qed.

Lemma unknown_kind_aborts_witness :
  snd (get_production_plan (calculator 90 (prices 60) with_solar)
         (store_of with_solar))
  = Raise InvalidPlantTypeProvided.
Proof.
  apply (unknown_kind_aborts (calculator 90 (prices 60) with_solar)
           (store_of with_solar) [0%nat] 1%nat []).
  - reflexivity.
  - repeat constructor; simpl; tauto.
  - repeat constructor. eexists. eexists. split; vm_compute; reflexivity.
  - reflexivity.
Defined.

(** ** Once the load is met *)

(** When the remaining load is not above zero, every unit still to come
    is assigned 0 and the loop cannot fail. *)
Lemma allocate_loop_met h : forall plants st,
  py_gt (remaining_load st) (Int 0) = false ->
  exists st',
    allocate_loop h plants st = Ok st'
    /\ remaining_load st' = remaining_load st
    /\ production_plan st'
       = production_plan st
         ++ map (fun l => {| item_name := name (h l); p := S754_zero false |})
              plants.
Proof.
  induction plants as [|l rest IH]; intros st H; cbn [allocate_loop map].
  - exists st. rewrite app_nil_r. auto.
  - unfold allocate_step. rewrite H. cbn [bind].
    edestruct IH as (st' & E & Hr & Hp); [|exists st'; split; [exact E|]].
    + exact H.
    + rewrite Hr, Hp. cbn [remaining_load production_plan].
      rewrite <- app_assoc. auto.
Qed.

Lemma allocate_loop_met_witness :
  exists st',
    allocate_loop (store_of scenario1) [0%nat; 2%nat]
      {| remaining_load := Int 0; power := None; production_plan := [] |}
    = Ok st'
    /\ remaining_load st' = Int 0
    /\ production_plan st'
       = [ {| item_name := "gasB"; p := S754_zero false |};
           {| item_name := "gasA"; p := S754_zero false |} ].
Proof.
  apply (allocate_loop_met (store_of scenario1) [0%nat; 2%nat]
           {| remaining_load := Int 0; power := None; production_plan := [] |}).
  reflexivity.
Defined.

(** ** Which exceptions the arithmetic raises *)

Section Raises.

Lemma py_float_raises x e : py_float x = Raise e -> e = OverflowError.
Proof.
  destruct x as [z|f]; simpl; try discriminate.
  destruct (is_inf _); congruence.
Qed.

Lemma py_round1_raises x e : py_round1 x = Raise e -> e = OverflowError.
Proof.
  destruct x as [z|[s|s| |s m k]]; simpl; try discriminate.
  destruct (tenths m k); try discriminate.
  destruct (is_inf _); congruence.
Qed.

Lemma one_decimal_raises x e : one_decimal x = Raise e -> e = OverflowError.
Proof.
  unfold one_decimal. destruct (py_round1 x) as [y|e'] eqn:E; cbn [bind].
  - apply py_float_raises.
  - intros [= <-]. eapply py_round1_raises, E.
Qed.

Lemma py_sub_float_raises x f e :
  py_sub x (Flt f) = Raise e -> e = OverflowError.
Proof.
  destruct x as [z|g]; simpl; try discriminate.
  destruct (is_inf _); simpl; congruence.
Qed.

Lemma dispatch_raises : forall units r e,
  dispatch r units = Raise e ->
  e = ManualInterventionNeeded \/ e = OverflowError.
Proof.
  induction units as [|u us IH]; intros r e; cbn [dispatch]; try discriminate.
  assert (Next : forall x,
            (f <- one_decimal x;;
             r' <- py_sub r (Flt f);;
             items <- dispatch r' us;;
             Ok ({| item_name := u_name u; p := f |} :: items)) = Raise e ->
            e = ManualInterventionNeeded \/ e = OverflowError).
  { intros x. destruct (one_decimal x) as [f|e1] eqn:E1; cbn [bind].
    2: { intros [= <-]. right. eapply one_decimal_raises, E1. }
    destruct (py_sub r (Flt f)) as [r'|e2] eqn:E2; cbn [bind].
    2: { intros [= <-]. right. eapply py_sub_float_raises, E2. }
    destruct (dispatch r' us) as [items|e3] eqn:E3; cbn [bind];
      try discriminate.
    intros [= <-]. eapply IH, E3. }
  destruct (py_le r (Int 0)).
  - destruct (dispatch r us) as [items|e3] eqn:E3; cbn [bind];
      try discriminate.
    intros [= <-]. eapply IH, E3.
  - destruct (py_lt r (Int (u_min u))); [intros [= <-]; auto|].
    destruct (py_ge r (u_cap u)); apply Next.
Qed.

End Raises.

(** ** The exceptions of a validated request *)

Section ValidatedRaises.

Variable self : ProductionPlanCalculator.
Hypothesis prices_ok : validated_fuels (self_fuels self) = true.

Lemma calculate_cost_per_MWH_raises o e :
  validated_unit o = true ->
  calculate_cost_per_MWH self o = Raise e ->
  e = InvalidPlantTypeProvided /\ kind_of_type (type o) = None.
Proof.
  intros Hu. pose proof prices_ok as Hf.
  unfold validated_fuels in Hf. repeat (apply andb_true_iff in Hf as [Hf ?]).
  unfold validated_unit in Hu. repeat (apply andb_true_iff in Hu as [Hu ?]).
  unfold calculate_cost_per_MWH, kind_of_type.
  destruct (String.eqb (type o) "gasfired").
  { destruct (float_truediv_positive (gas (self_fuels self)) (efficiency o))
      as (q & -> & _); auto. discriminate. }
  destruct (String.eqb (type o) "turbojet").
  { destruct (float_truediv_positive (kerosine (self_fuels self)) (efficiency o))
      as (q & -> & _); auto. discriminate. }
  destruct (String.eqb (type o) "windturbine"); try discriminate.
  intros [= <-]. auto.
Qed.

Lemma calculate_pmax_raises o e :
  validated_unit o = true -> kind_of_type (type o) <> None ->
  calculate_pmax self o = Raise e -> e = OverflowError.
Proof.
  intros Hu Hk. destruct (validated_unit_pmax o Hu) as (n & Hn & _).
  unfold calculate_pmax, kind_of_type in *. rewrite Hn.
  destruct (String.eqb (type o) "windturbine").
  - cbn [as_num bind py_mul py_truediv]. cbn [Z.eqb].
    destruct (is_inf _); cbn [bind]; try discriminate. congruence.
  - destruct (String.eqb (type o) "gasfired"); try discriminate.
    destruct (String.eqb (type o) "turbojet"); try discriminate.
    contradiction.
Qed.

Lemma derive_loop_raises : forall plants h e,
  NoDup plants ->
  Forall (fun l => validated_unit (h l) = true) plants ->
  snd (derive_loop self plants h) = Raise e ->
  e = OverflowError
  \/ (e = InvalidPlantTypeProvided
      /\ exists l, In l plants /\ kind_of_type (type (h l)) = None).
Proof.
  induction plants as [|l rest IH]; intros h e ND Hv; cbn [derive_loop snd];
    try discriminate.
  inversion ND as [|? ? Hn ND']; subst.
  inversion Hv as [|? ? Hl Hv']; subst.
  destruct (calculate_cost_per_MWH self (h l)) as [c|e1] eqn:Ec; cbn [snd].
  2: { intros [= <-]. right.
       destruct (calculate_cost_per_MWH_raises _ _ Hl Ec) as [-> Hk].
       split; auto. exists l. split; auto. left. reflexivity. }
  assert (Hk : kind_of_type (type (h l)) <> None).
  { intros Hk. destruct (unknown_kind_derivations self (h l) Hk) as [E _].
    congruence. }
  rewrite (calculate_pmax_ext self _ (h l))
    by (rewrite store_set_eq; repeat split).
  destruct (calculate_pmax self (h l)) as [m|e2] eqn:Em; cbn [snd].
  2: { intros [= <-]. left. eapply calculate_pmax_raises; eauto. }
  intros E. apply IH in E; auto.
  - destruct E as [E|(E & l' & Hin & Hk')]; auto.
    right. split; auto. exists l'. split; [right; exact Hin|].
    assert (N : l' <> l) by (intros ->; contradiction).
    rewrite !store_set_ne in Hk' by exact N. exact Hk'.
  - rewrite Forall_forall in *. intros l' Hin.
    assert (N : l' <> l) by (intros ->; contradiction).
    rewrite !store_set_ne by exact N. auto.
Qed.

End ValidatedRaises.

Section RequestRaises.

Variable self : ProductionPlanCalculator.
Variable h : store.
Hypothesis valid : validated self h = true.

Lemma ranking_raises e :
  snd (get_sorted_powerplants_with_pmax_and_cost self h) = Raise e ->
  e = OverflowError
  \/ (e = InvalidPlantTypeProvided /\ known_kinds self h = false).
Proof.
  intros E.
  assert (D : snd (derive_loop self (self_powerplants self) h) = Raise e).
  { unfold get_sorted_powerplants_with_pmax_and_cost in E.
    destruct (derive_loop self (self_powerplants self) h) as [h' [[]|e']];
      cbn [snd] in *; congruence. }
  apply (derive_loop_raises self (validated_fuels_ok self h valid)) in D.
  - destruct D as [D|(D & l & Hin & Hk)]; auto.
    right. split; auto. unfold known_kinds.
    destruct (forallb _ _) eqn:F; auto.
    rewrite forallb_forall in F. specialize (F l Hin). rewrite Hk in F.
    discriminate.
  - apply (validated_NoDup self h valid).
  - apply Forall_forall. intros l Hl.
    apply (validated_unit_ok self h valid l Hl).
Qed.

Lemma request_raises e :
  snd (get_production_plan self h) = Raise e ->
  e = ManualInterventionNeeded \/ e = OverflowError
  \/ (e = InvalidPlantTypeProvided /\ known_kinds self h = false).
Proof.
  destruct (snd (get_sorted_powerplants_with_pmax_and_cost self h))
    as [plants|e'] eqn:S.
  - destruct (plan_is_dispatch self h plants valid S) as (ranked & _ & _ & ->).
    intros E. apply dispatch_raises in E. tauto.
  - intros E.
    assert (E' : e' = e).
    { unfold get_production_plan in E.
      destruct (get_sorted_powerplants_with_pmax_and_cost self h)
        as [h' [pl|e'']]; cbn [snd] in *; congruence. }
    subst e'. apply ranking_raises in S. tauto.
Qed.

End RequestRaises.

(** ** A load that is not above zero *)

Section NoLoad.

Lemma allocate_loop_no_load h : forall plants st,
  py_gt (remaining_load st) (Int 0) = false ->
  (st' <- allocate_loop h plants st;; Ok (production_plan st'))
  = Ok (production_plan st ++ map (zero_item h) plants).
Proof.
  induction plants as [|l rest IH]; intros st H; cbn [allocate_loop map bind].
  - rewrite app_nil_r. reflexivity.
  - unfold allocate_step. rewrite H. cbn [bind].
    rewrite IH by exact H. cbn [production_plan].
    rewrite <- app_assoc. reflexivity.
Qed.

Lemma int_not_above_zero z : z <= 0 -> py_gt (Int z) (Int 0) = false.
Proof.
  intros H. rewrite py_gt_lt. unfold py_lt, py_compare; simpl.
  rewrite cmp_fin_zero. destruct (Z.compare_spec 0 z); auto. lia.
Qed.

End NoLoad.

(** ** Units without a minimum *)

Section NoFloor.

Lemma above_zero_not_below z r :
  z <= 0 -> py_gt r (Int 0) = true -> py_lt r (Int z) = false.
Proof.
  intros Hz Hr. apply positive_float_cases in Hr.
  unfold py_lt, py_compare.
  destruct r as [y|[s|s| |s m e]]; try contradiction; simpl.
  - unfold cmp_fin. simpl. rewrite !Z.mul_1_r.
    destruct (Z.compare_spec y z); auto. lia.
  - destruct s; [contradiction|reflexivity].
  - destruct s; [contradiction|]. simpl.
    rewrite (cmp_fin_align (Z.min e 0)) by lia.
    assert (0 < 2 ^ (e - Z.min e 0)) by (apply Z.pow_pos_nonneg; lia).
    assert (0 < 2 ^ (0 - Z.min e 0)) by (apply Z.pow_pos_nonneg; lia).
    destruct (Z.compare_spec (Z.pos m * 2 ^ (e - Z.min e 0))
                (z * 2 ^ (0 - Z.min e 0))); auto.
    nia.
Qed.

Lemma py_mul_raises x y e : py_mul x y = Raise e -> e = OverflowError.
Proof.
  destruct x as [a|f], y as [b|g]; simpl; try discriminate;
    repeat (destruct (is_inf _); simpl; try discriminate); congruence.
Qed.

Lemma py_truediv_raises x y e :
  py_truediv x y = Raise e -> e = ZeroDivisionError \/ e = OverflowError.
Proof.
  assert (F : forall fx fy,
            (if is_zero fy then Raise ZeroDivisionError
             else Ok (Flt (SFdiv prec emax fx fy))) = Raise e ->
            e = ZeroDivisionError \/ e = OverflowError).
  { intros fx fy. destruct (is_zero fy); try discriminate.
    intros [= <-]. auto. }
  destruct x as [a|f], y as [b|g]; simpl.
  - destruct (b =? 0); [intros [= <-]; auto|].
    destruct (is_inf _); try discriminate. intros [= <-]. auto.
  - destruct (is_inf _); simpl; [intros [= <-]; auto|]. apply F.
  - destruct (is_inf _); simpl; [intros [= <-]; auto|]. apply F.
  - apply F.
Qed.

Lemma derivations_not_manual self o :
  calculate_cost_per_MWH self o <> Raise ManualInterventionNeeded
  /\ calculate_pmax self o <> Raise ManualInterventionNeeded.
Proof.
  unfold calculate_cost_per_MWH, calculate_pmax. split.
  - destruct (String.eqb _ _);
      [intros E; apply py_truediv_raises in E; destruct E; discriminate|].
    destruct (String.eqb _ _);
      [intros E; apply py_truediv_raises in E; destruct E; discriminate|].
    destruct (String.eqb _ _); discriminate.
  - destruct (String.eqb _ _).
    + destruct (pmax o) as [n|]; cbn [as_num bind]; try discriminate.
      destruct (py_mul n _) as [m|e1] eqn:E1; cbn [bind].
      2: { apply py_mul_raises in E1. subst. discriminate. }
      destruct (py_truediv m (Int 100)) as [q|e2] eqn:E2; cbn [bind];
        try discriminate.
      apply py_truediv_raises in E2. destruct E2; subst; discriminate.
    + destruct (_ || _); discriminate.
Qed.

Lemma derive_loop_not_manual self : forall plants h,
  snd (derive_loop self plants h) <> Raise ManualInterventionNeeded.
Proof.
  induction plants as [|l rest IH]; intros h; cbn [derive_loop snd];
    try discriminate.
  destruct (derivations_not_manual self (h l)) as [N1 _].
  destruct (calculate_cost_per_MWH self (h l)) as [c|e1]; cbn [snd];
    [|congruence].
  match goal with |- context [calculate_pmax self ?o] =>
    destruct (derivations_not_manual self o) as [_ N2];
    destruct (calculate_pmax self o) as [m|e2]; cbn [snd]; [|congruence]
  end.
  apply IH.
Qed.

Lemma allocate_step_no_floor plant st :
  pmin plant <= 0 ->
  allocate_step plant st <> Raise ManualInterventionNeeded.
Proof.
  intros Hm. unfold allocate_step.
  destruct (py_gt (remaining_load st) (Int 0)) eqn:Hgt; try discriminate.
  rewrite (above_zero_not_below _ _ Hm Hgt).
  destruct (pmax plant) as [cap|]; cbn [as_num bind]; try discriminate.
  assert (R : forall x,
            (y <- py_round1 x;; f <- py_float y;; Ok (Some f))
            <> Raise ManualInterventionNeeded).
  { intros x. destruct (py_round1 x) as [y|e1] eqn:E1; cbn [bind].
    - destruct (py_float y) as [f|e2] eqn:E2; cbn [bind]; try discriminate.
      apply py_float_raises in E2. subst. discriminate.
    - apply py_round1_raises in E1. subst. discriminate. }
  match goal with |- (pw <- ?c;; _) <> _ =>
    assert (C : c <> Raise ManualInterventionNeeded)
      by (destruct (py_ge _ _); [apply R|];
          destruct (_ && _); [apply R|discriminate]);
    destruct c as [pw|e0]; cbn [bind]; [|congruence]
  end.
  destruct pw as [f|]; cbn [bind]; try discriminate.
  destruct (py_sub _ (Flt f)) as [r'|e3] eqn:E3; cbn [bind]; try discriminate.
  apply py_sub_float_raises in E3. subst. discriminate.
Qed.

Lemma allocate_loop_no_floor h : forall plants st,
  Forall (fun l => pmin (h l) <= 0) plants ->
  allocate_loop h plants st <> Raise ManualInterventionNeeded.
Proof.
  induction plants as [|l rest IH]; intros st Hf; cbn [allocate_loop];
    try discriminate.
  inversion Hf as [|? ? Hl Hf']; subst.
  pose proof (allocate_step_no_floor (h l) st Hl) as N.
  destruct (allocate_step (h l) st) as [st1|e]; cbn [bind]; [|congruence].
  apply IH, Hf'.
Qed.

End NoFloor.

(** ** Stores that differ in the derived cost only *)

Section SameButCost.

Variable self : ProductionPlanCalculator.

Lemma same_but_cost_refl o : same_but_cost o o.
Proof. split; [apply same_inputs_refl | reflexivity]. Qed.

Lemma same_but_cost_sym o o' : same_but_cost o o' -> same_but_cost o' o.
Proof. intros [H1 H2]. split; [apply same_inputs_sym, H1 | congruence]. Qed.

Lemma same_but_cost_trans o1 o2 o3 :
  same_but_cost o1 o2 -> same_but_cost o2 o3 -> same_but_cost o1 o3.
Proof.
  intros [H1 H2] [H3 H4].
  split; [eapply same_inputs_trans; eauto | congruence].
Qed.

Lemma allocate_step_ext o o' st :
  same_but_cost o o' -> allocate_step o st = allocate_step o' st.
Proof.
  intros [(Hn & _ & _ & Hm) Hp]. unfold allocate_step.
  rewrite Hn, Hm, Hp. reflexivity.
Qed.

Lemma allocate_loop_ext h1 h2 : forall plants st,
  (forall l, In l plants -> same_but_cost (h1 l) (h2 l)) ->
  allocate_loop h1 plants st = allocate_loop h2 plants st.
Proof.
  induction plants as [|l rest IH]; intros st H; [reflexivity|].
  cbn [allocate_loop].
  rewrite (allocate_step_ext (h1 l) (h2 l)) by (apply H; left; reflexivity).
  destruct (allocate_step (h2 l) st); cbn [bind]; [|reflexivity].
  apply IH. intros l' Hl. apply H. right. exact Hl.
Qed.

Lemma insert_by_ext {A : Type} (k1 k2 : A -> num) x l :
  k1 x = k2 x -> (forall y, In y l -> k1 y = k2 y) ->
  insert_by k1 x l = insert_by k2 x l.
Proof.
  intros Hx. induction l as [|y l IH]; intros H; [reflexivity|].
  cbn [insert_by]. rewrite Hx, (H y) by (left; reflexivity).
  rewrite IH by (intros z Hz; apply H; right; exact Hz). reflexivity.
Qed.

Lemma sorted_ext {A : Type} (k1 k2 : A -> num) l :
  (forall y, In y l -> k1 y = k2 y) -> sorted k1 l = sorted k2 l.
Proof.
  induction l as [|x l IH]; intros H; [reflexivity|].
  cbn [sorted]. rewrite <- IH by (intros z Hz; apply H; right; exact Hz).
  apply insert_by_ext.
  - apply H. left. reflexivity.
  - intros y Hy. apply H. right.
    eapply Permutation_in; [apply sorted_perm | exact Hy].
Qed.

(** The loop reads the type, the efficiency and [pmax] of the objects,
    never their derived cost. *)
Lemma derive_loop_cong : forall plants h1 h2,
  (forall l, same_but_cost (h1 l) (h2 l)) ->
  snd (derive_loop self plants h1) = snd (derive_loop self plants h2)
  /\ (forall l, same_but_cost (fst (derive_loop self plants h1) l)
                  (fst (derive_loop self plants h2) l)).
Proof.
  induction plants as [|l0 rest IH]; intros h1 h2 H; cbn [derive_loop].
  - split; [reflexivity | exact H].
  - destruct (H l0) as [Hi Hp].
    rewrite (calculate_cost_per_MWH_ext self (h1 l0) (h2 l0) Hi).
    destruct (calculate_cost_per_MWH self (h2 l0)) as [c|e]; cbn [fst snd].
    2: { split; [reflexivity | exact H]. }
    rewrite !store_set_eq.
    rewrite (calculate_pmax_ext self (set_cost_per_MWH (h1 l0) c)
               (set_cost_per_MWH (h2 l0) c)) by (exact Hi || exact Hp).
    assert (S1 : forall l,
              same_but_cost (store_set h1 l0 (set_cost_per_MWH (h1 l0) c) l)
                (store_set h2 l0 (set_cost_per_MWH (h2 l0) c) l)).
    { intros l. destruct (Nat.eq_dec l l0) as [->|N].
      - rewrite !store_set_eq. split; [exact Hi | exact Hp].
      - rewrite !store_set_ne by exact N. apply H. }
    destruct (calculate_pmax self (set_cost_per_MWH (h2 l0) c)) as [m|e];
      cbn [fst snd].
    2: { split; [reflexivity | exact S1]. }
    apply IH. intros l. destruct (Nat.eq_dec l l0) as [->|N].
    + rewrite !store_set_eq. split; [exact Hi | reflexivity].
    + rewrite !store_set_ne by exact N. apply H.
Qed.

Lemma key_of_cong plants h1 h2 h1' h2' :
  (forall l, same_but_cost (h1 l) (h2 l)) ->
  derive_loop self plants h1 = (h1', Ok tt) ->
  derive_loop self plants h2 = (h2', Ok tt) ->
  forall l, In l plants -> key_of h1' l = key_of h2' l.
Proof.
  intros H E1 E2 l Hl.
  destruct (derive_loop_cost_set self _ _ _ E1 l Hl) as (c1 & C1 & K1).
  destruct (derive_loop_cost_set self _ _ _ E2 l Hl) as (c2 & C2 & K2).
  unfold key_of. rewrite K1, K2.
  destruct (H l) as [Hi _].
  rewrite (calculate_cost_per_MWH_ext self _ _ Hi) in C1. congruence.
Qed.

Lemma get_production_plan_cong h1 h2 :
  (forall l, same_but_cost (h1 l) (h2 l)) ->
  snd (get_production_plan self h1) = snd (get_production_plan self h2).
Proof.
  intros H. unfold get_production_plan,
    get_sorted_powerplants_with_pmax_and_cost.
  destruct (derive_loop_cong (self_powerplants self) h1 h2 H) as [Hs Hf].
  pose proof (key_of_cong (self_powerplants self) h1 h2) as K.
  destruct (derive_loop self (self_powerplants self) h1) as [h1' [[]|e1]];
    destruct (derive_loop self (self_powerplants self) h2) as [h2' [[]|e2]];
    cbn [fst snd] in *; try discriminate;
    try (injection Hs as ->; reflexivity).
  rewrite (sorted_ext (key_of h1') (key_of h2'))
    by (apply (K h1' h2' H eq_refl eq_refl)).
  rewrite (allocate_loop_ext h1' h2') by (intros l _; apply Hf).
  reflexivity.
Qed.

(** Without a wind turbine in the list the loop changes nothing but the
    derived cost. *)
Lemma derive_loop_no_wind : forall plants h,
  forallb (fun l => negb (String.eqb (type (h l)) "windturbine")) plants
  = true ->
  forall l, same_but_cost (fst (derive_loop self plants h) l) (h l).
Proof.
  induction plants as [|l0 rest IH]; intros h F l; cbn [derive_loop].
  - apply same_but_cost_refl.
  - cbn [forallb] in F. apply andb_true_iff in F as [F0 F].
    apply negb_true_iff in F0.
    destruct (calculate_cost_per_MWH self (h l0)) as [c|e]; cbn [fst].
    2: { apply same_but_cost_refl. }
    rewrite !store_set_eq.
    assert (S1 : forall l',
              same_but_cost (store_set h l0 (set_cost_per_MWH (h l0) c) l')
                (h l')).
    { intros l'. destruct (Nat.eq_dec l' l0) as [->|N].
      - rewrite store_set_eq. repeat split.
      - rewrite store_set_ne by exact N. apply same_but_cost_refl. }
    unfold calculate_pmax. cbn [type set_cost_per_MWH pmax]. rewrite F0.
    destruct (_ || _); cbn [fst]; [|apply S1].
    match goal with |- same_but_cost (fst (derive_loop self rest ?h2) l) _ =>
      assert (S2 : forall l', same_but_cost (h2 l') (h l'))
    end.
    { intros l'. destruct (Nat.eq_dec l' l0) as [->|N].
      - rewrite store_set_eq. repeat split.
      - rewrite !store_set_ne by exact N. apply same_but_cost_refl. }
    eapply same_but_cost_trans; [apply IH | apply S2].
    apply forallb_forall. intros l' Hl'.
    rewrite forallb_forall in F. specialize (F l' Hl').
    destruct (S2 l') as [(_ & Ht & _) _]. rewrite Ht. exact F.
Qed.

End SameButCost.

(** ** Wind turbines when there is no wind *)

Section NoWind.

Lemma zero_wind_capacity self o n :
  wind (self_fuels self) = 0 ->
  type o = "windturbine" ->
  pmax o = Some (Int n) ->
  calculate_pmax self o = Ok (Some (Flt (S754_zero false))).
Proof.
  intros Hw Ht Hp. unfold calculate_pmax. rewrite Ht, Hp, Hw.
  cbn [String.eqb Ascii.eqb Bool.eqb as_num bind py_mul].
  rewrite Z.mul_0_r. reflexivity.
Qed.

Lemma above_zero_reaches_zero r :
  py_gt r (Int 0) = true -> py_ge r (Flt (S754_zero false)) = true.
Proof.
  unfold py_gt, py_ge, py_compare. cbn [xval_of xval_of_float].
  destruct (xcompare (xval_of r) (XFin 0 0)) as [[]|]; auto.
Qed.

(** A unit with a capacity of 0.0 is listed with 0.0 whenever the loop
    gets past it. *)
Lemma allocate_step_item plant st st' :
  allocate_step plant st = Ok st' ->
  exists f,
    production_plan st'
    = production_plan st ++ [{| item_name := name plant; p := f |}]
    /\ (pmax plant = Some (Flt (S754_zero false)) -> f = S754_zero false).
Proof.
  unfold allocate_step.
  destruct (py_gt (remaining_load st) (Int 0)) eqn:Hgt.
  2: { intros [= <-]. eexists. split; reflexivity. }
  destruct (py_lt _ _); try discriminate.
  destruct (pmax plant) as [cap|]; cbn [as_num bind]; try discriminate.
  match goal with |- (pw <- ?c;; _) = _ -> _ => destruct c as [pw|] eqn:C end;
    cbn [bind]; try discriminate.
  destruct pw as [f|]; cbn [bind]; try discriminate.
  destruct (py_sub _ _); cbn [bind]; try discriminate.
  intros [= <-]. exists f. split; [reflexivity|].
  intros [= ->]. rewrite (above_zero_reaches_zero _ Hgt) in C.
  cbn in C. congruence.
Qed.

Lemma allocate_loop_items h : forall plants st st',
  allocate_loop h plants st = Ok st' ->
  exists items,
    production_plan st' = production_plan st ++ items
    /\ Forall2 (fun l i =>
                  item_name i = name (h l)
                  /\ (pmax (h l) = Some (Flt (S754_zero false)) ->
                      p i = S754_zero false)) plants items.
Proof.
  induction plants as [|l rest IH]; intros st st'; cbn [allocate_loop].
  - intros [= <-]. exists []. rewrite app_nil_r. split; constructor.
  - destruct (allocate_step (h l) st) as [st1|] eqn:E; cbn [bind];
      try discriminate.
    intros A. destruct (allocate_step_item _ _ _ E) as (f & Hp & Hz).
    destruct (IH _ _ A) as (items & Hi & Hf).
    exists ({| item_name := name (h l); p := f |} :: items). split.
    + rewrite Hi, Hp, <- app_assoc. reflexivity.
    + constructor; auto.
Qed.

End NoWind.

(** ** The handler *)

Section Handler.

Variable input_data : InputData.
Variable h : store.

Lemma handler_store :
  fst (App.get_production_plan input_data h)
  = fst (get_production_plan (init input_data) h).
Proof.
  unfold App.get_production_plan.
  destruct (get_production_plan (init input_data) h) as [h' [plan|[]]];
    reflexivity.
Qed.

Lemma handler_cases :
  match snd (App.get_production_plan input_data h) with
  | Ok (Items plan) =>
      snd (get_production_plan (init input_data) h) = Ok plan
  | Ok (Entry k v) =>
      k = "error" /\ v = App.error_text
      /\ snd (get_production_plan (init input_data) h)
         = Raise ManualInterventionNeeded
  | Raise e =>
      e <> ManualInterventionNeeded
      /\ snd (get_production_plan (init input_data) h) = Raise e
  end.
Proof.
  unfold App.get_production_plan.
  destruct (get_production_plan (init input_data) h) as [h' [plan|[]]];
    cbn [snd]; auto; split; auto; discriminate.
Qed.

End Handler.

(** ** The carbon price *)

Section Carbon.

Lemma derive_loop_fuels self1 self2 :
  gas (self_fuels self1) = gas (self_fuels self2) ->
  kerosine (self_fuels self1) = kerosine (self_fuels self2) ->
  wind (self_fuels self1) = wind (self_fuels self2) ->
  forall plants h, derive_loop self1 plants h = derive_loop self2 plants h.
Proof.
  intros G K W.
  assert (C : forall o,
            calculate_cost_per_MWH self1 o = calculate_cost_per_MWH self2 o).
  { intros o. unfold calculate_cost_per_MWH. rewrite G, K. reflexivity. }
  assert (M : forall o, calculate_pmax self1 o = calculate_pmax self2 o).
  { intros o. unfold calculate_pmax. rewrite W. reflexivity. }
  induction plants as [|l rest IH]; intros h; cbn [derive_loop]; auto.
  rewrite C. destruct (calculate_cost_per_MWH self2 (h l)); auto.
  rewrite M. destruct (calculate_pmax self2 _); auto.
Qed.

Lemma get_production_plan_fuels self1 self2 h :
  self_load self1 = self_load self2 ->
  self_powerplants self1 = self_powerplants self2 ->
  gas (self_fuels self1) = gas (self_fuels self2) ->
  kerosine (self_fuels self1) = kerosine (self_fuels self2) ->
  wind (self_fuels self1) = wind (self_fuels self2) ->
  get_production_plan self1 h = get_production_plan self2 h.
Proof.
  intros L P G K W.
  unfold get_production_plan, get_sorted_powerplants_with_pmax_and_cost,
    initial_locals.
  rewrite (derive_loop_fuels self1 self2 G K W), L, P. reflexivity.
Qed.

End Carbon.

(** ** Wind turbines in the ranking *)

Section WindFirst.

(** A cost that is not below zero and not above it compares as zero. *)
Lemma zero_cost_value c :
  (c = Int 0 \/ exists q, c = Flt q /\ signed false q) ->
  py_le c (Int 0) = true -> xval_of c = XFin 0 0.
Proof.
  intros [->|(q & -> & Hq)]; [reflexivity|].
  unfold py_le, py_compare.
  destruct q as [s|s| |s m e]; cbn [signed] in Hq; subst; simpl; auto;
    try discriminate.
  unfold cmp_fin. rewrite Z.mul_0_l.
  assert (0 < 2 ^ (e - Z.min e 0)) by (apply Z.pow_pos_nonneg; lia).
  destruct (Z.compare_spec (Z.pos m * 2 ^ (e - Z.min e 0)) 0);
    try discriminate; nia.
Qed.

Lemma validated_cost_cases self o c :
  validated_fuels (self_fuels self) = true ->
  validated_unit o = true -> calculate_cost_per_MWH self o = Ok c ->
  (type o = "windturbine" -> c = Int 0)
  /\ (c = Int 0 \/ exists q, c = Flt q /\ signed false q).
Proof.
  intros Hf Hu.
  unfold validated_fuels in Hf. repeat (apply andb_true_iff in Hf as [Hf ?]).
  unfold validated_unit in Hu. repeat (apply andb_true_iff in Hu as [Hu ?]).
  unfold calculate_cost_per_MWH.
  destruct (String.eqb (type o) "gasfired") eqn:Eg.
  { apply String.eqb_eq in Eg.
    destruct (float_truediv_positive (gas (self_fuels self)) (efficiency o))
      as (q & -> & Hq); auto.
    intros [= <-]. split; [rewrite Eg; discriminate|eauto]. }
  destruct (String.eqb (type o) "turbojet") eqn:Et.
  { apply String.eqb_eq in Et.
    destruct (float_truediv_positive (kerosine (self_fuels self)) (efficiency o))
      as (q & -> & Hq); auto.
    intros [= <-]. split; [rewrite Et; discriminate|eauto]. }
  destruct (String.eqb (type o) "windturbine"); try discriminate.
  intros [= <-]. auto.
Qed.

Lemma Sorted_middle {A : Type} (R : A -> A -> Prop) : forall pre a x post,
  Sorted R (pre ++ a :: x :: post) -> R a x.
Proof.
  induction pre as [|b pre IH]; intros a x post S; cbn [app] in S.
  - inversion S as [|? ? _ Hd]; subst. inversion Hd; subst. assumption.
  - inversion S; subst. eapply IH; eauto.
Qed.

Lemma zero_key_before {A : Type} (key : A -> num) : forall pre x post,
  Sorted (key_le key) (pre ++ x :: post) ->
  (forall a, In a (pre ++ x :: post) ->
     key a = Int 0 \/ exists q, key a = Flt q /\ signed false q) ->
  py_le (key x) (Int 0) = true ->
  Forall (fun a => py_le (key a) (Int 0) = true) pre.
Proof.
  induction pre as [|a pre IH] using rev_ind; intros x post S K Hx;
    [constructor|].
  rewrite <- app_assoc in S, K. cbn [app] in S, K.
  assert (Ha : py_le (key a) (Int 0) = true).
  { pose proof (Sorted_middle _ _ _ _ _ S) as R. unfold key_le in R.
    assert (Z0 : xval_of (key x) = XFin 0 0).
    { apply zero_cost_value; auto. apply K, in_or_app. right. right. left.
      reflexivity. }
    unfold py_le, py_compare in *. rewrite Z0 in R. exact R. }
  apply Forall_app. split; [|repeat constructor; exact Ha].
  apply (IH a (x :: post) S K Ha).
Qed.

End WindFirst.

(** ** The exceptions of a parsed request *)

Section ParsedRaises.

Variable self : ProductionPlanCalculator.

Lemma float_truediv_raises g f e :
  py_truediv (Flt g) (Flt f) = Raise e ->
  e = ZeroDivisionError /\ is_zero f = true.
Proof.
  simpl. destruct (is_zero f); try discriminate. intros [= <-]. auto.
Qed.

Lemma calculate_cost_per_MWH_parsed o e :
  calculate_cost_per_MWH self o = Raise e ->
  (e = InvalidPlantTypeProvided /\ kind_of_type (type o) = None)
  \/ (e = ZeroDivisionError /\ zero_efficiency_unit o = true).
Proof.
  unfold calculate_cost_per_MWH, kind_of_type, zero_efficiency_unit.
  destruct (String.eqb (type o) "gasfired").
  { intros E. apply float_truediv_raises in E as [-> ->]. auto. }
  destruct (String.eqb (type o) "turbojet").
  { intros E. apply float_truediv_raises in E as [-> ->]. auto. }
  destruct (String.eqb (type o) "windturbine"); try discriminate.
  intros [= <-]. auto.
Qed.

Lemma calculate_pmax_parsed o :
  int_pmax o = true -> kind_of_type (type o) <> None ->
  match calculate_pmax self o with
  | Ok m => exists c, m = Some c /\ finite_num c = true
  | Raise e => e = OverflowError
  end.
Proof.
  unfold int_pmax, calculate_pmax, kind_of_type.
  destruct (pmax o) as [[n|f]|]; try discriminate. intros _ Hk.
  destruct (String.eqb (type o) "windturbine").
  - cbn [as_num bind py_mul].
    destruct (py_truediv (Int (n * wind (self_fuels self))) (Int 100))
      as [q|e] eqn:E; cbn [bind].
    + apply int_truediv_finite in E. destruct E as (f & -> & Hf & _).
      exists (Flt f). auto.
    + simpl in E. destruct (is_inf _); congruence.
  - destruct (String.eqb (type o) "gasfired").
    { exists (Int n). auto. }
    destruct (String.eqb (type o) "turbojet").
    { exists (Int n). auto. }
    contradiction.
Qed.

Lemma derive_loop_parsed : forall plants h,
  NoDup plants ->
  Forall (fun l => int_pmax (h l) = true) plants ->
  match derive_loop self plants h with
  | (h', Ok _) =>
      forall l, In l plants ->
      exists c, pmax (h' l) = Some c /\ finite_num c = true
  | (_, Raise e) =>
      e = OverflowError
      \/ (e = InvalidPlantTypeProvided
          /\ exists l, In l plants /\ kind_of_type (type (h l)) = None)
      \/ (e = ZeroDivisionError
          /\ exists l, In l plants /\ zero_efficiency_unit (h l) = true)
  end.
Proof.
  induction plants as [|l rest IH]; intros h ND Hv; cbn [derive_loop].
  { intros l []. }
  inversion ND as [|? ? Hn ND']; subst.
  inversion Hv as [|? ? Hl Hv']; subst.
  destruct (calculate_cost_per_MWH self (h l)) as [c|e1] eqn:Ec.
  2: { apply calculate_cost_per_MWH_parsed in Ec.
       destruct Ec as [[-> Hk]|[-> Hz]]; right; [left|right]; split; auto;
         exists l; split; auto; left; reflexivity. }
  assert (Hk : kind_of_type (type (h l)) <> None).
  { intros Hk. destruct (unknown_kind_derivations self (h l) Hk) as [E _].
    congruence. }
  rewrite (calculate_pmax_ext self _ (h l))
    by (rewrite store_set_eq; repeat split).
  pose proof (calculate_pmax_parsed (h l) Hl Hk) as Hm.
  destruct (calculate_pmax self (h l)) as [m|e2] eqn:Em; [|auto].
  destruct Hm as (cap & -> & Hcap).
  match goal with |- match derive_loop self rest ?h2 with _ => _ end =>
    set (h2' := h2);
    assert (Same : forall l', l' <> l -> h2' l' = h l')
      by (intros l' N; unfold h2'; rewrite !store_set_ne by exact N;
          reflexivity);
    assert (Here : pmax (h2' l) = Some cap)
      by (unfold h2'; rewrite store_set_eq; reflexivity);
    specialize (IH h2' ND');
    pose proof (derive_loop_frame self rest h2' l) as [_ Fr]
  end.
  assert (Hv2 : Forall (fun l' => int_pmax (h2' l') = true) rest).
  { rewrite Forall_forall in *. intros l' Hin.
    rewrite Same by (intros ->; contradiction). auto. }
  specialize (IH Hv2).
  destruct (derive_loop self rest h2') as [h' [[]|e]]; cbn [fst] in *.
  - intros l' [<-|Hin]; [|apply IH, Hin].
    rewrite (Fr Hn), Here. eauto.
  - destruct IH as [IH|[(-> & l' & Hin & Hk')|(-> & l' & Hin & Hz)]]; auto;
      right; [left|right]; split; auto; exists l'; (split; [right; exact Hin|]);
      rewrite Same in * by (intros ->; contradiction); assumption.
Qed.

Variable h : store.
Hypothesis units_ok : parsed self h = true.

Lemma parsed_NoDup : NoDup (self_powerplants self).
Proof.
  unfold parsed in units_ok. apply andb_true_iff in units_ok as [D _].
  apply distinct_NoDup, D.
Qed.

Lemma parsed_int_pmax :
  Forall (fun l => int_pmax (h l) = true) (self_powerplants self).
Proof.
  unfold parsed in units_ok. apply andb_true_iff in units_ok as [_ F].
  apply Forall_forall. apply forallb_forall, F.
Qed.

Lemma parsed_views h' :
  derive_loop self (self_powerplants self) h = (h', Ok tt) ->
  forall plants, incl plants (self_powerplants self) ->
  exists units, views_of h' plants = Some units
    /\ Forall (fun u => finite_num (u_cap u) = true) units.
Proof.
  intros E.
  pose proof (derive_loop_parsed _ h parsed_NoDup parsed_int_pmax) as D.
  rewrite E in D.
  induction plants as [|l rest IH]; intros Hin.
  - exists []. split; constructor.
  - destruct IH as (us & Hv & Hc).
    { intros x Hx. apply Hin. right. exact Hx. }
    destruct (D l) as (c & Hp & Hfin); [apply Hin; left; reflexivity|].
    exists ({| u_name := name (h' l); u_min := pmin (h' l); u_cap := c |} :: us).
    split.
    + cbn [views_of]. unfold view_of. rewrite Hp, Hv. reflexivity.
    + constructor; auto.
Qed.

End ParsedRaises.

(** ** The objects after a rejected request *)

Section Rejected.

Lemma manual_after_ranking self h :
  snd (get_production_plan self h) = Raise ManualInterventionNeeded ->
  derive_loop self (self_powerplants self) h
  = (fst (get_production_plan self h), Ok tt).
Proof.
  rewrite get_production_plan_store, get_sorted_store.
  unfold get_production_plan, get_sorted_powerplants_with_pmax_and_cost.
  pose proof (derive_loop_not_manual self (self_powerplants self) h) as D.
  destruct (derive_loop self (self_powerplants self) h) as [h' [[]|e]];
    cbn [fst snd] in *; [reflexivity|congruence].
Qed.

End Rejected.

(** ** Numbers too small to overflow *)

Section Digits.

Lemma digits2_pos_bounds p :
  2 ^ (Zpos (digits2_pos p) - 1) <= Zpos p < 2 ^ Zpos (digits2_pos p).
Proof.
  induction p as [p IH|p IH|]; cbn [digits2_pos]; [| |simpl; lia].
  all: rewrite Pos2Z.inj_succ.
  all: replace (Z.succ (Zpos (digits2_pos p)) - 1)
         with (Z.succ (Zpos (digits2_pos p) - 1)) by lia.
  all: rewrite !Z.pow_succ_r by lia.
  all: set (a := 2 ^ (Zpos (digits2_pos p) - 1)) in *.
  all: set (b := 2 ^ Zpos (digits2_pos p)) in *.
  - rewrite Pos2Z.inj_xI. lia.
  - rewrite Pos2Z.inj_xO. lia.
Qed.

Lemma Zdigits2_nonneg m : 0 <= Zdigits2 m.
Proof. destruct m; simpl; lia. Qed.

Lemma Zdigits2_le m k : 0 <= m -> 0 <= k -> m < 2 ^ k -> Zdigits2 m <= k.
Proof.
  intros Hm Hk H. destruct m as [|p|p]; simpl; try lia.
  destruct (digits2_pos_bounds p) as [L _].
  destruct (Z_le_gt_dec (Zpos (digits2_pos p)) k) as [|G]; auto.
  assert (2 ^ k <= 2 ^ (Zpos (digits2_pos p) - 1))
    by (apply Z.pow_le_mono_r; lia).
  lia.
Qed.

Lemma Zdigits2_lt m : 0 <= m -> m < 2 ^ Zdigits2 m.
Proof.
  intros Hm. destruct m as [|p|p]; simpl; try lia.
  apply digits2_pos_bounds.
Qed.

Lemma Zdigits2_succ m : 0 <= m -> Zdigits2 (m + 1) <= Zdigits2 m + 1.
Proof.
  intros Hm. pose proof (Zdigits2_lt m Hm). pose proof (Zdigits2_nonneg m).
  apply Zdigits2_le; try lia.
  rewrite Z.pow_add_r by lia. simpl (2 ^ 1). lia.
Qed.

Lemma shr_1_digits mrs :
  0 <= shr_m mrs ->
  Zdigits2 (shr_m (shr_1 mrs)) = Z.max 0 (Zdigits2 (shr_m mrs) - 1).
Proof.
  destruct mrs as [m r s]; cbn [shr_m]. intros H.
  destruct m as [|[p|p|]|p]; cbn [shr_1 shr_m Zdigits2 digits2_pos];
    try rewrite Pos2Z.inj_succ; lia.
Qed.

Lemma iter_shr_1_digits p : forall mrs,
  0 <= shr_m mrs ->
  Zdigits2 (shr_m (iter_pos shr_1 p mrs))
  = Z.max 0 (Zdigits2 (shr_m mrs) - Zpos p).
Proof.
  induction p as [p IH|p IH|]; intros mrs H; cbn [iter_pos].
  - rewrite IH, IH, shr_1_digits by auto using iter_shr_1_nonneg, shr_1_nonneg.
    lia.
  - rewrite IH, IH by auto using iter_shr_1_nonneg. lia.
  - apply shr_1_digits, H.
Qed.

Lemma shr_record_of_loc_m m l : shr_m (shr_record_of_loc m l) = m.
Proof. destruct l as [|[]]; reflexivity. Qed.

(** A shift to the canonical exponent keeps the number of digits before
    the point, and does not raise the exponent above [E]. *)
Lemma shr_fexp_bound m e l D E :
  0 <= m -> Zdigits2 m + e <= D -> emin prec emax <= D ->
  e <= E -> D - prec <= E -> emin prec emax <= E ->
  0 <= shr_m (fst (shr_fexp prec emax m e l))
  /\ Zdigits2 (shr_m (fst (shr_fexp prec emax m e l)))
     + snd (shr_fexp prec emax m e l) <= D
  /\ snd (shr_fexp prec emax m e l) <= E.
Proof.
  intros Hm Hd HD He HE HE'. split; [apply shr_fexp_nonneg, Hm|].
  unfold shr_fexp, shr.
  assert (F : fexp prec emax (Zdigits2 m + e)
              = Z.max (Zdigits2 m + e - prec) (emin prec emax))
    by reflexivity.
  assert (P : 0 <= prec) by (unfold prec; lia).
  destruct (fexp prec emax (Zdigits2 m + e) - e) as [|n|n] eqn:N;
    cbn [fst snd]; rewrite ?shr_record_of_loc_m; try lia.
  rewrite iter_shr_1_digits by (rewrite shr_record_of_loc_m; exact Hm).
  rewrite shr_record_of_loc_m. lia.
Qed.

Lemma round_nearest_even_bound m l :
  0 <= m ->
  0 <= round_nearest_even m l
  /\ Zdigits2 (round_nearest_even m l) <= Zdigits2 m + 1.
Proof.
  intros H. split; [apply round_nearest_even_nonneg, H|].
  pose proof (Zdigits2_succ m H).
  destruct l as [|[]]; cbn [round_nearest_even]; try lia.
  destruct (Z.even m); lia.
Qed.

(** Rounding a number of at most [D] digits before the point, [D] below
    [emax]: no overflow, and at most one digit more. *)
Lemma binary_round_aux_bound s m e l D :
  0 <= m -> Zdigits2 m + e <= D -> emin prec emax <= D ->
  e <= emax - prec -> D < emax ->
  match binary_round_aux prec emax s m e l with
  | S754_zero _ => True
  | S754_finite _ m' e' => Zpos (digits2_pos m') + e' <= D + 1
  | _ => False
  end.
Proof.
  intros Hm Hd HD He HD'. unfold binary_round_aux.
  destruct (shr_fexp_bound m e l D (emax - prec) Hm Hd HD He)
    as (N1 & D1 & E1); try (unfold emin, emax, prec in *; lia).
  destruct (shr_fexp prec emax m e l) as [mrs' e']; cbn [fst snd] in *.
  destruct (round_nearest_even_bound (shr_m mrs') (loc_of_shr_record mrs') N1)
    as [N2 D2].
  destruct (shr_fexp_bound (round_nearest_even (shr_m mrs')
                              (loc_of_shr_record mrs'))
              e' loc_Exact (D + 1) (emax - prec) N2)
    as (N3 & D3 & E3); try (unfold emin, emax, prec in *; lia).
  destruct (shr_fexp prec emax _ e' loc_Exact) as [mrs'' e''];
    cbn [fst snd] in *.
  destruct (shr_m mrs'') as [|m'|m']; auto; try lia.
  apply Z.leb_le in E3. rewrite E3. exact D3.
Qed.

End Digits.

Section NoOverflow.

Lemma digits2_pos_iter_xO m d :
  Zpos (digits2_pos (Pos.iter xO m d)) = Zpos (digits2_pos m) + Zpos d.
Proof.
  induction d as [|d IH] using Pos.peano_ind.
  - cbn [Pos.iter digits2_pos]. lia.
  - rewrite Pos.iter_succ. cbn [digits2_pos]. lia.
Qed.

Lemma binary_round_bound s m e D :
  Zpos (digits2_pos m) + e <= D -> emin prec emax <= D ->
  e <= emax - prec -> D < emax ->
  match binary_round prec emax s m e with
  | S754_zero _ => True
  | S754_finite _ m' e' => Zpos (digits2_pos m') + e' <= D + 1
  | _ => False
  end.
Proof.
  intros Hd HD He HD'. unfold binary_round, shl_align.
  destruct (fexp prec emax (Zpos (digits2_pos m) + e) - e) as [|n|n] eqn:N.
  - apply binary_round_aux_bound; auto; simpl; lia.
  - apply binary_round_aux_bound; auto; simpl; lia.
  - apply binary_round_aux_bound; auto; try lia.
    cbn [Zdigits2]. rewrite digits2_pos_iter_xO. lia.
Qed.

Lemma py_float_small z D :
  Zdigits2 z <= D -> D < emax ->
  exists f, py_float (Int z) = Ok f.
Proof.
  intros Hd HD. cbn [py_float].
  assert (E : emin prec emax <= D).
  { pose proof (Zdigits2_nonneg z). unfold emin, prec, emax. lia. }
  assert (I : is_inf (binary_normalize prec emax z 0 false) = false).
  { destruct z as [|p|p]; cbn [binary_normalize]; [reflexivity| |].
    - pose proof (binary_round_bound false p 0 D) as B.
      destruct (binary_round prec emax false p 0); auto.
      exfalso. apply B; unfold emax, prec in *; simpl in *; lia.
    - pose proof (binary_round_bound true p 0 D) as B.
      destruct (binary_round prec emax true p 0); auto.
      exfalso. apply B; unfold emax, prec in *; simpl in *; lia. }
  rewrite I. eauto.
Qed.

Lemma SFdiv_bound s1 m1 s2 m2 D :
  Zpos (digits2_pos m1) <= D -> D < emax ->
  match SFdiv prec emax (S754_finite s1 m1 0) (S754_finite s2 m2 0) with
  | S754_zero _ => True
  | S754_finite _ m e => Zpos (digits2_pos m) + e <= D + 1
  | _ => False
  end.
Proof.
  intros Hd HD. unfold SFdiv, SFdiv_core_binary.
  set (e' := Z.min _ _).
  assert (He' : e' <= 0) by (unfold e'; lia).
  set (s := 0 - 0 - e').
  set (m' := match s with
             | 0 => Zpos m1
             | Zpos _ => Z.shiftl (Zpos m1) s
             | Zneg _ => 0
             end).
  assert (Hs : 0 <= s) by (unfold s; lia).
  assert (Hm' : m' = Zpos m1 * 2 ^ s).
  { unfold m'. clearbody s. destruct s as [|n|n]; try lia.
    apply Z.shiftl_mul_pow2. lia. }
  assert (P : 0 < 2 ^ s) by (apply Z.pow_pos_nonneg; lia).
  pose proof (Z_div_mod m' (Zpos m2) eq_refl) as DM.
  destruct (Z.div_eucl m' (Zpos m2)) as [q r]. destruct DM as [Eq Hr].
  assert (Hq : 0 <= q) by nia.
  assert (Hq' : q <= m') by nia.
  destruct (digits2_pos_bounds m1) as [_ U].
  apply binary_round_aux_bound; auto.
  - assert (Zdigits2 q <= Zpos (digits2_pos m1) + s).
    { apply Zdigits2_le; try lia. rewrite Z.pow_add_r by lia. nia. }
    unfold s in *. lia.
  - unfold emin, prec, emax. lia.
  - unfold emax, prec. lia.
Qed.

Lemma round_half_even_bound n d :
  0 <= n -> 0 < d ->
  n / d <= round_half_even n d <= n / d + 1.
Proof.
  intros Hn Hd. unfold round_half_even.
  destruct (2 * (n mod d) ?= d); [destruct (Z.even (n / d))| |]; lia.
Qed.

Lemma tenths_bound m e D :
  Zpos (digits2_pos m) + e <= D -> 0 <= D ->
  0 <= tenths m e /\ Zdigits2 (tenths m e) <= D + 5.
Proof.
  intros Hd HD. destruct (digits2_pos_bounds m) as [_ U].
  set (dm := Zpos (digits2_pos m)) in *.
  assert (T : 10 * Zpos m < 2 ^ (dm + 4)).
  { rewrite Z.pow_add_r by (unfold dm; lia). simpl (2 ^ 4). lia. }
  unfold tenths. destruct e as [|p|p].
  - rewrite Z.mul_1_r. split; [lia|].
    apply Zdigits2_le; try lia.
    eapply Z.lt_le_trans; [exact T|]. apply Z.pow_le_mono_r; lia.
  - assert (0 < 2 ^ Zpos p) by (apply Z.pow_pos_nonneg; lia).
    split; [nia|]. apply Zdigits2_le; try nia.
    apply Z.lt_le_trans with (2 ^ (dm + 4) * 2 ^ Zpos p); [nia|].
    rewrite <- Z.pow_add_r by (unfold dm; lia).
    apply Z.pow_le_mono_r; lia.
  - assert (P : 0 < 2 ^ Zpos p) by (apply Z.pow_pos_nonneg; lia).
    pose proof (round_half_even_bound (10 * Zpos m) (2 ^ Zpos p)
                  ltac:(lia) P) as [L R].
    assert (Q : 0 <= 10 * Zpos m / 2 ^ Zpos p)
      by (apply Z.div_pos; lia).
    split; [lia|].
    destruct (Z_le_gt_dec (Zpos p) (dm + 4)) as [Le|Gt].
    + assert (10 * Zpos m / 2 ^ Zpos p < 2 ^ (dm + 4 - Zpos p)).
      { apply Z.div_lt_upper_bound; [exact P|].
        rewrite <- Z.pow_add_r by lia.
        replace (Zpos p + (dm + 4 - Zpos p)) with (dm + 4) by lia. exact T. }
      apply Zdigits2_le; try lia.
      apply Z.le_lt_trans with (2 ^ (dm + 4 - Zpos p)); [lia|].
      apply Z.pow_lt_mono_r; lia.
    + assert (10 * Zpos m / 2 ^ Zpos p = 0).
      { apply Z.div_small. split; [lia|].
        eapply Z.lt_le_trans; [exact T|]. apply Z.pow_le_mono_r; lia. }
      apply Zdigits2_le; try lia.
      apply Z.le_lt_trans with 1; [lia|].
      apply Z.lt_le_trans with (2 ^ 1); [simpl; lia|].
      apply Z.pow_le_mono_r; lia.
Qed.

(** Rounding a small number to one decimal does not overflow. *)
Lemma one_decimal_small D x :
  small D x -> 0 <= D -> D + 5 < emax ->
  exists f, one_decimal x = Ok f.
Proof.
  unfold small, one_decimal. intros Hs HD HD'.
  destruct x as [z|[s|s| |s m e]]; cbn [xval_of xval_of_float] in Hs;
    try contradiction.
  - cbn [py_round1 bind]. apply (py_float_small z D); lia.
  - cbn. eauto.
  - assert (Hd : Zpos (digits2_pos m) + e <= D) by (destruct s; exact Hs).
    destruct (tenths_bound m e D Hd HD) as [T0 T]. cbn [py_round1].
    destruct (tenths m e) as [|k|k]; cbn [bind py_float]; eauto; try lia.
    pose proof (SFdiv_bound s k false 10 (D + 5) T HD') as B.
    destruct (SFdiv prec emax (S754_finite s k 0) (S754_finite false 10 0));
      cbn [is_inf bind py_float]; eauto; contradiction.
Qed.

Lemma cmp_fin_small m1 e1 m2 e2 D :
  0 < m1 -> cmp_fin m1 e1 m2 e2 = Lt ->
  Zdigits2 m2 + e2 <= D -> Zdigits2 m1 + e1 <= D.
Proof.
  unfold cmp_fin. set (e := Z.min e1 e2). intros H1 C' H2.
  destruct (Z.compare_spec (m1 * 2 ^ (e1 - e)) (m2 * 2 ^ (e2 - e)))
    as [|C|]; try discriminate. clear C'.
  assert (P1 : 0 < 2 ^ (e1 - e)) by (apply Z.pow_pos_nonneg; lia).
  assert (P2 : 0 < 2 ^ (e2 - e)) by (apply Z.pow_pos_nonneg; lia).
  assert (H0 : 0 < m2).
  { destruct (Z_lt_le_dec 0 m2) as [|N]; auto. exfalso.
    pose proof (Z.mul_pos_pos _ _ H1 P1).
    pose proof (Z.mul_nonpos_nonneg m2 (2 ^ (e2 - e)) N ltac:(lia)). lia. }
  destruct m1 as [|p1|p1]; try lia. destruct m2 as [|p2|p2]; try lia.
  cbn [Zdigits2] in *.
  destruct (digits2_pos_bounds p1) as [L1 _].
  destruct (digits2_pos_bounds p2) as [_ U2].
  destruct (Z_le_gt_dec (Zpos (digits2_pos p1) + e1) D) as [|G]; auto.
  exfalso.
  assert (A : 2 ^ (Zpos (digits2_pos p2) + (e2 - e))
              <= 2 ^ (Zpos (digits2_pos p1) - 1 + (e1 - e)))
    by (apply Z.pow_le_mono_r; lia).
  rewrite !Z.pow_add_r in A by lia. nia.
Qed.

(** In the last case of the loop the remaining load is small when the
    capacity is. *)
Lemma small_below D r c :
  py_le r (Int 0) = false -> py_ge r c = false -> small D c ->
  small D r \/ r = Flt S754_nan.
Proof.
  unfold small, py_le, py_ge, py_compare. intros H0 Hc Sc.
  destruct (xval_of c) as [| |m2 e2] eqn:Ec; try contradiction.
  destruct r as [z|[s|s| |s m e]]; cbn [xval_of xval_of_float xcompare] in *;
    auto.
  - left. apply (cmp_fin_small z 0 m2 e2); auto.
    + unfold cmp_fin in H0. simpl in H0. rewrite Z.mul_1_r in H0.
      destruct (Z.compare_spec z 0); try discriminate. lia.
    + destruct (cmp_fin z 0 m2 e2); try discriminate. reflexivity.
  - rewrite cmp_fin_refl in H0. discriminate.
  - destruct s; discriminate.
  - left. destruct s; cbn [cond_Zopp] in *.
    + exfalso. unfold cmp_fin in H0. rewrite Z.mul_0_l in H0.
      assert (0 < 2 ^ (e - Z.min e 0)) by (apply Z.pow_pos_nonneg; lia).
      destruct (Z.compare_spec (- Z.pos m * 2 ^ (e - Z.min e 0)) 0);
        try discriminate. nia.
    + apply (cmp_fin_small (Zpos m) e m2 e2); auto; try lia.
      destruct (cmp_fin (Zpos m) e m2 e2); try discriminate. reflexivity.
Qed.

Lemma dispatch_no_overflow D :
  0 <= D -> D + 5 < emax ->
  forall units r,
    Forall (fun u => small D (u_cap u)) units ->
    (forall z, r = Int z -> Zdigits2 z < emax) ->
    dispatch r units <> Raise OverflowError.
Proof.
  intros HD HD'. induction units as [|u us IH]; intros r Hc Hr;
    cbn [dispatch]; try discriminate.
  inversion Hc as [|? ? Hu Hc']; subst.
  assert (Sub : forall f, py_sub r (Flt f) <> Raise OverflowError
                          /\ forall r', py_sub r (Flt f) = Ok r' ->
                                        forall z, r' = Int z ->
                                                  Zdigits2 z < emax).
  { intros f. destruct r as [z|g]; cbn [py_sub py_float bind].
    - destruct (py_float_small z (emax - 1)) as [fz E];
        [specialize (Hr z eq_refl); lia | lia |].
      cbn [py_float] in E.
      destruct (is_inf (binary_normalize prec emax z 0 false));
        try discriminate.
      cbn [bind]. split; [discriminate|]. intros r' [= <-] z' [=].
    - split; [discriminate|]. intros r' [= <-] z' [=]. }
  assert (Next : forall x,
            (exists f, one_decimal x = Ok f) ->
            (f <- one_decimal x;;
             r' <- py_sub r (Flt f);;
             items <- dispatch r' us;;
             Ok ({| item_name := u_name u; p := f |} :: items))
            <> Raise OverflowError).
  { intros x [f ->]. cbn [bind]. destruct (Sub f) as [S1 S2].
    destruct (py_sub r (Flt f)) as [r'|e2]; cbn [bind]; [|congruence].
    pose proof (IH r' Hc' (S2 r' eq_refl)) as N.
    destruct (dispatch r' us); cbn [bind]; congruence. }
  destruct (py_le r (Int 0)) eqn:H0.
  - pose proof (IH r Hc' Hr) as N.
    destruct (dispatch r us); cbn [bind]; congruence.
  - destruct (py_lt r (Int (u_min u))); [discriminate|].
    destruct (py_ge r (u_cap u)) eqn:Hg; apply Next.
    + apply (one_decimal_small D); auto.
    + destruct (small_below D r (u_cap u) H0 Hg Hu) as [S| ->].
      * apply (one_decimal_small D); auto.
      * cbn. eauto.
Qed.

End NoOverflow.

(** ** Requests within the limits *)

Section WithinLimits.

Variable self : ProductionPlanCalculator.
Hypothesis prices_ok : validated_fuels (self_fuels self) = true.

Lemma limit_digits n : 0 <= n -> n < limit -> Zdigits2 n <= 1000.
Proof. intros H0 H. apply Zdigits2_le; auto; lia. Qed.

(** The capacity of a unit within the limits derives without an
    overflow, and is small. *)
Lemma calculate_pmax_small o n :
  pmax o = Some (Int n) -> 0 <= n -> n < limit ->
  kind_of_type (type o) <> None ->
  exists c, calculate_pmax self o = Ok (Some c) /\ small 1008 c.
Proof.
  intros Hp H0 Hl Hk. pose proof prices_ok as Hf.
  unfold validated_fuels in Hf. repeat (apply andb_true_iff in Hf as [Hf ?]).
  assert (W0 : 0 <= wind (self_fuels self)) by (apply Z.leb_le; auto).
  assert (W1 : wind (self_fuels self) <= 100) by (apply Z.leb_le; auto).
  unfold calculate_pmax, kind_of_type in *. rewrite Hp.
  destruct (String.eqb (type o) "windturbine").
  - cbn [as_num bind py_mul py_truediv]. cbn [Z.eqb].
    set (a := n * wind (self_fuels self)).
    assert (A0 : 0 <= a) by (unfold a; nia).
    assert (A1 : a < 2 ^ 1007).
    { unfold a, limit in *.
      replace (2 ^ 1007) with (2 ^ 1000 * 2 ^ 7)
        by (rewrite <- Z.pow_add_r by lia; reflexivity).
      simpl (2 ^ 7). nia. }
    pose proof (Zdigits2_le a 1007 A0 ltac:(lia) A1) as Da.
    destruct a as [|p|p]; try lia.
    + eexists. split; [reflexivity|]. unfold small. simpl. lia.
    + cbn [Z2SF Zdigits2] in *.
      pose proof (SFdiv_bound false p false 100 1007 Da
                    ltac:(unfold emax; lia)) as B.
      destruct (SFdiv prec emax (S754_finite false p 0)
                  (S754_finite false 100 0)) as [s|s| |s m e];
        try contradiction; cbn [is_inf bind];
        (eexists; split; [reflexivity|]); unfold small; simpl; try lia.
      destruct s; cbn [cond_Zopp Z.opp Zdigits2]; clear - B; lia.
  - exists (Int n). split.
    + destruct (String.eqb (type o) "gasfired"); [reflexivity|].
      destruct (String.eqb (type o) "turbojet"); [reflexivity|].
      contradiction.
    + unfold small. simpl. pose proof (limit_digits n H0 Hl). lia.
Qed.

Lemma derive_loop_no_overflow : forall plants h,
  NoDup plants ->
  Forall (fun l => validated_unit (h l) = true
                   /\ exists n, pmax (h l) = Some (Int n) /\ n < limit)
    plants ->
  snd (derive_loop self plants h) <> Raise OverflowError.
Proof.
  induction plants as [|l rest IH]; intros h ND Hv; cbn [derive_loop snd];
    try discriminate.
  inversion ND as [|? ? Hn ND']; subst.
  inversion Hv as [|? ? (Hl & n & Hp & Hlim) Hv']; subst.
  destruct (calculate_cost_per_MWH self (h l)) as [c|e1] eqn:Ec; cbn [snd].
  2: { destruct (calculate_cost_per_MWH_raises self prices_ok _ _ Hl Ec)
         as [-> _]. discriminate. }
  assert (Hk : kind_of_type (type (h l)) <> None).
  { intros Hk. destruct (unknown_kind_derivations self (h l) Hk) as [E _].
    congruence. }
  rewrite (calculate_pmax_ext self _ (h l))
    by (rewrite store_set_eq; repeat split).
  destruct (validated_unit_pmax _ Hl) as (n' & Hp' & N0).
  assert (n' = n) by congruence. subst n'.
  destruct (calculate_pmax_small (h l) n Hp N0 Hlim Hk) as (cap & -> & _).
  apply IH; auto.
  rewrite Forall_forall in *. intros l' Hin.
  assert (N : l' <> l) by (intros ->; contradiction).
  rewrite !store_set_ne by exact N. auto.
Qed.

End WithinLimits.

Section LimitedRequest.

Variable self : ProductionPlanCalculator.
Variable h : store.
Hypothesis valid : validated self h = true.
Hypothesis limited : within_limits self h = true.

Lemma limited_load : self_load self < limit.
Proof.
  unfold within_limits in limited.
  apply andb_true_iff in limited as [L _]. apply Z.ltb_lt, L.
Qed.

Lemma limited_unit l :
  In l (self_powerplants self) ->
  exists n, pmax (h l) = Some (Int n) /\ 0 <= n /\ n < limit.
Proof.
  intros Hl. unfold within_limits in limited.
  apply andb_true_iff in limited as [_ F].
  rewrite forallb_forall in F. specialize (F l Hl).
  destruct (validated_unit_pmax _ (validated_unit_ok self h valid l Hl))
    as (n & Hp & N0).
  rewrite Hp in F. exists n. repeat split; auto. apply Z.ltb_lt, F.
Qed.

Lemma limited_request_raises e :
  snd (get_production_plan self h) = Raise e ->
  e = ManualInterventionNeeded
  \/ (e = InvalidPlantTypeProvided /\ known_kinds self h = false).
Proof.
  intros R.
  assert (N : e <> OverflowError); [|destruct (request_raises self h valid e R)
                                        as [|[|]]; tauto].
  intros ->.
  destruct (snd (get_sorted_powerplants_with_pmax_and_cost self h))
    as [plants|e'] eqn:S.
  - destruct (plan_is_dispatch self h plants valid S)
      as (ranked & He & _ & D).
    rewrite D in R. revert R.
    apply (dispatch_no_overflow 1008); try (unfold emax; lia).
    + assert (In_all : forall l, In l plants -> In l (self_powerplants self)).
      { destruct (get_sorted_ok self h plants S) as [_ ->].
        intros l Hl. eapply Permutation_in; [apply sorted_perm | exact Hl]. }
      clear S D. induction He as [|l u ls us (_ & _ & Hc) He IH];
        constructor.
      * destruct (limited_unit l) as (n & Hp & N0 & N1);
          [apply In_all; left; reflexivity|].
        assert (Hk : kind_of_type (type (h l)) <> None).
        { intros Hk. destruct (unknown_kind_derivations self (h l) Hk)
            as [_ E]. congruence. }
        destruct (calculate_pmax_small self (validated_fuels_ok self h valid)
                    (h l) n Hp N0 N1 Hk) as (c & Hc' & Sc).
        congruence.
      * apply IH. intros l' Hl'. apply In_all. right. exact Hl'.
    + intros z [= <-].
      assert (0 <= self_load self).
      { unfold validated in valid.
        repeat (apply andb_true_iff in valid as [valid ?]).
        apply Z.leb_le, valid. }
      pose proof (limit_digits _ H limited_load). unfold emax. lia.
  - assert (D : snd (derive_loop self (self_powerplants self) h)
                = Raise OverflowError).
    { unfold get_production_plan,
        get_sorted_powerplants_with_pmax_and_cost in *.
      destruct (derive_loop self (self_powerplants self) h) as [h' [[]|e'']];
        cbn [snd] in *; congruence. }
    revert D. apply derive_loop_no_overflow.
    + apply (validated_fuels_ok self h valid).
    + apply (validated_NoDup self h valid).
    + apply Forall_forall. intros l Hl. split.
      * apply (validated_unit_ok self h valid l Hl).
      * destruct (limited_unit l Hl) as (n & Hp & _ & N1). eauto.
Qed.

End LimitedRequest.

(** ** The engine and the application on whole requests *)

(** The exceptions of a validated request: [get_production_plan]
    raises nothing but [ManualInterventionNeeded], [OverflowError] (a
    load or a capacity too large for a float) and
    [InvalidPlantTypeProvided], the last one only when some unit has a
    type outside gasfired, turbojet and windturbine.  No [ZeroDivisionError], [TypeError] or
    [UnboundLocalError] leaves the engine. *)
Theorem validated_request_exceptions
    (self : ProductionPlanCalculator) (h : store) (e : exn) :
  validated self h = true ->
  snd (get_production_plan self h) = Raise e ->
  e = ManualInterventionNeeded \/ e = OverflowError
  \/ (e = InvalidPlantTypeProvided /\ known_kinds self h = false).
Proof. intros V. apply request_raises, V. Qed.

Lemma validated_request_exceptions_witness :
  InvalidPlantTypeProvided = ManualInterventionNeeded
  \/ InvalidPlantTypeProvided = OverflowError
  \/ (InvalidPlantTypeProvided = InvalidPlantTypeProvided
      /\ known_kinds (calculator 90 (prices 60) with_solar)
           (store_of with_solar) = false).
Proof.
  apply (validated_request_exceptions (calculator 90 (prices 60) with_solar)
           (store_of with_solar) InvalidPlantTypeProvided).
  - vm_compute. reflexivity.
  - vm_compute. reflexivity.
Defined.

(** A load that is not above zero: [get_production_plan] raises what
    the ranking raises, and otherwise returns every ranked unit with an
    output of 0.0, whatever the minima and capacities are. *)
Theorem nonpositive_load_plan
    (self : ProductionPlanCalculator) (h : store) :
  self_load self <= 0 ->
  snd (get_production_plan self h)
  = (plants <- snd (get_sorted_powerplants_with_pmax_and_cost self h);;
     Ok (map (zero_item h) plants)).
Proof.
  intros L. unfold get_production_plan.
  pose proof (get_sorted_store self h) as S.
  pose proof (derive_loop_frame self (self_powerplants self) h) as F.
  destruct (get_sorted_powerplants_with_pmax_and_cost self h)
    as [h' [plants|e]]; cbn [fst snd bind] in *; [|reflexivity].
  rewrite (allocate_loop_no_load h' plants (initial_locals self))
    by (apply int_not_above_zero, L).
  cbn [initial_locals production_plan app]. f_equal.
  apply map_ext. intros l. unfold zero_item. f_equal.
  destruct (F l) as [(Fn & _) _]. rewrite <- S in Fn. exact Fn.
Qed.

Lemma nonpositive_load_plan_witness :
  snd (get_production_plan (calculator 0 (prices 60) scenario1)
         (store_of scenario1))
  = (plants <- snd (get_sorted_powerplants_with_pmax_and_cost
                      (calculator 0 (prices 60) scenario1)
                      (store_of scenario1));;
     Ok (map (zero_item (store_of scenario1)) plants)).
Proof.
  apply (nonpositive_load_plan (calculator 0 (prices 60) scenario1)
           (store_of scenario1)).
  vm_compute. discriminate.
Defined.

(** When no unit of the list has a minimum above zero,
    [get_production_plan] never raises [ManualInterventionNeeded]. *)
Theorem no_minimum_no_manual_intervention
    (self : ProductionPlanCalculator) (h : store) :
  no_floor self h = true ->
  snd (get_production_plan self h) <> Raise ManualInterventionNeeded.
Proof.
  intros F. unfold get_production_plan,
    get_sorted_powerplants_with_pmax_and_cost.
  pose proof (derive_loop_not_manual self (self_powerplants self) h) as D.
  pose proof (derive_loop_frame self (self_powerplants self) h) as Fr.
  destruct (derive_loop self (self_powerplants self) h) as [h' [[]|e]];
    cbn [fst snd] in *; [|congruence].
  assert (A : allocate_loop h'
                (sorted (key_of h') (self_powerplants self))
                (initial_locals self) <> Raise ManualInterventionNeeded).
  { apply allocate_loop_no_floor. apply Forall_forall. intros l Hl.
    apply (Permutation_in _ (sorted_perm _ _)) in Hl.
    unfold no_floor in F. rewrite forallb_forall in F.
    destruct (Fr l) as [(_ & _ & _ & ->) _]. apply Z.leb_le, F, Hl. }
  destruct (allocate_loop h' _ _) as [st|e]; cbn [bind]; congruence.
Qed.

Lemma no_minimum_no_manual_intervention_witness :
  snd (get_production_plan (calculator 1 (prices 10) (firstn 3 residue))
         (store_of (firstn 3 residue)))
  <> Raise ManualInterventionNeeded.
Proof.
  apply (no_minimum_no_manual_intervention
           (calculator 1 (prices 10) (firstn 3 residue))
           (store_of (firstn 3 residue))).
  vm_compute. reflexivity.
Defined.

(** Without a wind turbine in the list, a second call of
    [get_production_plan] on the same calculator, over the objects as the
    first call left them, returns what the first call returned: the same
    plan or the same exception. *)
Theorem second_call_without_wind
    (self : ProductionPlanCalculator) (h : store) :
  no_wind self h = true ->
  snd (get_production_plan self (fst (get_production_plan self h)))
  = snd (get_production_plan self h).
Proof.
  intros F. apply get_production_plan_cong. intros l.
  rewrite get_production_plan_store, get_sorted_store.
  apply derive_loop_no_wind, F.
Qed.

Lemma second_call_without_wind_witness :
  snd (get_production_plan (calculator 100 (prices 60) one_gas)
         (fst (get_production_plan (calculator 100 (prices 60) one_gas)
                 (store_of one_gas))))
  = snd (get_production_plan (calculator 100 (prices 60) one_gas)
           (store_of one_gas)).
Proof.
  apply (second_call_without_wind (calculator 100 (prices 60) one_gas)
           (store_of one_gas)).
  vm_compute. reflexivity.
Defined.

(** With the wind at 0 percent, every plan returned for a validated
    request lists each wind turbine with an output of 0.0: the plan has
    one entry for each unit of a reordering of the input list, named
    after it, and the entry of a wind turbine is 0.0. *)
Theorem zero_wind_turbines_idle
    (self : ProductionPlanCalculator) (h : store) (plan : list ResultItem) :
  validated self h = true ->
  wind (self_fuels self) = 0 ->
  snd (get_production_plan self h) = Ok plan ->
  exists ranked,
    Permutation ranked (self_powerplants self)
    /\ Forall2 (still_turbine h) ranked plan.
Proof.
  intros V W P.
  destruct (get_production_plan_ok self h plan P) as (plants & st & S & A & ->).
  destruct (get_sorted_ok self h plants S) as [E Hs].
  set (h' := fst (get_sorted_powerplants_with_pmax_and_cost self h)) in *.
  assert (Hperm : Permutation plants (self_powerplants self)).
  { rewrite Hs. apply sorted_perm. }
  exists plants. split; [exact Hperm|].
  destruct (allocate_loop_items h' plants _ _ A) as (items & Hi & Hf).
  cbn [initial_locals production_plan app] in Hi. rewrite Hi.
  assert (In_all : forall l, In l plants -> In l (self_powerplants self)).
  { intros l Hl. eapply Permutation_in; eauto. }
  clear Hi Hs A S P Hperm. revert In_all.
  induction Hf as [|l i ls items0 [Hn Hz] Hf IH]; intros In_all; constructor.
  - assert (Hl : In l (self_powerplants self)) by (apply In_all; left; auto).
    pose proof (derive_loop_frame self (self_powerplants self) h l) as [F _].
    rewrite E in F. cbn [fst] in F. destruct F as (Fn & _).
    split; [congruence|]. intros Ht. apply Hz.
    destruct (derive_loop_pmax self _ _ _ E (validated_NoDup self h V) l Hl)
      as (m & Hm & Hp).
    destruct (validated_unit_pmax _ (validated_unit_ok self h V l Hl))
      as (n & Hn' & _).
    rewrite (zero_wind_capacity self (h l) n W Ht Hn') in Hm. congruence.
  - apply IH. intros l' Hl'. apply In_all. right. exact Hl'.
Qed.

Lemma zero_wind_turbines_idle_witness :
  exists ranked,
    Permutation ranked
      (self_powerplants (calculator 480 (prices 0) scenario1))
    /\ Forall2 (still_turbine (store_of scenario1)) ranked
         [ {| item_name := "wind"; p := S754_zero false |};
           {| item_name := "gasA"; p := dec 400 0 |};
           {| item_name := "gasB"; p := dec 80 0 |} ].
Proof.
  apply (zero_wind_turbines_idle (calculator 480 (prices 0) scenario1)
           (store_of scenario1)).
  - vm_compute. reflexivity.
  - reflexivity.
  - vm_compute. reflexivity.
Defined.

(** The handler of POST /productionplan on a validated request:
    it returns the engine's plan when the engine returns one; it returns
    the entry [error] with the fixed text exactly when the engine raises
    [ManualInterventionNeeded]; the only exceptions it lets through are
    [OverflowError] and, when a unit has an unknown type,
    [InvalidPlantTypeProvided]. *)
Theorem handler_outcomes (input_data : InputData) (h : store) :
  validated (init input_data) h = true ->
  match snd (App.get_production_plan input_data h) with
  | Ok (Items plan) =>
      snd (get_production_plan (init input_data) h) = Ok plan
  | Ok (Entry k v) =>
      k = "error" /\ v = App.error_text
      /\ snd (get_production_plan (init input_data) h)
         = Raise ManualInterventionNeeded
  | Raise e =>
      snd (get_production_plan (init input_data) h) = Raise e
      /\ (e = OverflowError
          \/ (e = InvalidPlantTypeProvided
              /\ known_kinds (init input_data) h = false))
  end.
Proof.
  intros V. pose proof (handler_cases input_data h) as C.
  destruct (snd (App.get_production_plan input_data h)) as [[plan|k v]|e];
    auto.
  destruct C as [N E]. split; [exact E|].
  destruct (request_raises (init input_data) h V e E) as [M|[O|I]]; auto.
  contradiction.
Qed.

Lemma handler_outcomes_witness :
  match
    snd (App.get_production_plan
           {| load := 1; fuels := prices 10;
              powerplants := seq 0 (List.length residue) |}
           (store_of residue))
  with
  | Ok (Items plan) =>
      snd (get_production_plan (calculator 1 (prices 10) residue)
             (store_of residue)) = Ok plan
  | Ok (Entry k v) =>
      k = "error" /\ v = App.error_text
      /\ snd (get_production_plan (calculator 1 (prices 10) residue)
                (store_of residue))
         = Raise ManualInterventionNeeded
  | Raise e =>
      snd (get_production_plan (calculator 1 (prices 10) residue)
             (store_of residue)) = Raise e
      /\ (e = OverflowError
          \/ (e = InvalidPlantTypeProvided
              /\ known_kinds (calculator 1 (prices 10) residue)
                   (store_of residue) = false))
  end.
Proof.
  apply (handler_outcomes
           {| load := 1; fuels := prices 10;
              powerplants := seq 0 (List.length residue) |}
           (store_of residue)).
  vm_compute. reflexivity.
Defined.

(** Every plan [get_production_plan] returns, for a validated
    request or not, has exactly one entry for each reference of the
    calculator's list: its names are the names of a reordering of that
    list.  Of the sort, the proof uses only that it rearranges its
    input. *)
Theorem plan_has_one_entry_per_unit
    (self : ProductionPlanCalculator) (h : store) (plan : list ResultItem) :
  snd (get_production_plan self h) = Ok plan ->
  exists ranked,
    Permutation ranked (self_powerplants self)
    /\ map item_name plan = map (fun l => name (h l)) ranked.
Proof.
  intros P.
  destruct (get_production_plan_ok self h plan P) as (plants & st & S & A & ->).
  destruct (get_sorted_ok self h plants S) as [E Hs].
  exists plants. split; [rewrite Hs; apply sorted_perm|].
  rewrite (allocate_loop_names _ _ _ _ A). cbn [initial_locals production_plan
    map app].
  apply map_ext. intros l.
  pose proof (derive_loop_frame self (self_powerplants self) h l) as [F _].
  rewrite E in F. cbn [fst] in F. destruct F as (Fn & _). exact Fn.
Qed.

Lemma plan_has_one_entry_per_unit_witness :
  exists ranked,
    Permutation ranked
      (self_powerplants (calculator 480 (prices 60) scenario1))
    /\ map item_name
         [ {| item_name := "wind"; p := dec 120 0 |};
           {| item_name := "gasA"; p := dec 360 0 |};
           {| item_name := "gasB"; p := S754_zero false |} ]
       = map (fun l => name (store_of scenario1 l)) ranked.
Proof.
  apply (plan_has_one_entry_per_unit (calculator 480 (prices 60) scenario1)
           (store_of scenario1)).
  vm_compute. reflexivity.
Defined.

(** The carbon price is never read: two calculators that differ in
    [co2] only return the same result and leave the same objects. *)
Theorem carbon_price_is_ignored
    (ld : Z) (g k : spec_float) (c1 c2 w : Z) (units : list loc) (h : store) :
  get_production_plan
    {| self_load := ld;
       self_fuels := {| gas := g; kerosine := k; co2 := c1; wind := w |};
       self_powerplants := units |} h
  = get_production_plan
      {| self_load := ld;
         self_fuels := {| gas := g; kerosine := k; co2 := c2; wind := w |};
         self_powerplants := units |} h.
Proof. apply get_production_plan_fuels; reflexivity. Qed.

(** In the ranking of a validated request, every unit that stands
    before a wind turbine has a marginal cost that is not above zero: no
    unit with a positive cost is dispatched before a wind turbine. *)
Theorem no_positive_cost_before_wind
    (self : ProductionPlanCalculator) (h : store) (plants : list loc)
    (pre : list loc) (l : loc) (post : list loc) :
  validated self h = true ->
  snd (get_sorted_powerplants_with_pmax_and_cost self h) = Ok plants ->
  plants = pre ++ l :: post ->
  type (h l) = "windturbine" ->
  Forall (fun l' => exists c,
            calculate_cost_per_MWH self (h l') = Ok c
            /\ py_le c (Int 0) = true) pre.
Proof.
  intros V S Hp Ht.
  destruct (get_sorted_ok self h plants S) as [E Hs].
  set (h' := fst (get_sorted_powerplants_with_pmax_and_cost self h)) in *.
  assert (In_all : forall a, In a plants -> In a (self_powerplants self)).
  { intros a Ha. rewrite Hs in Ha.
    eapply Permutation_in; [apply sorted_perm | exact Ha]. }
  assert (K : forall a, In a plants ->
            calculate_cost_per_MWH self (h a) = Ok (key_of h' a)
            /\ (type (h a) = "windturbine" -> key_of h' a = Int 0)
            /\ (key_of h' a = Int 0
                \/ exists q, key_of h' a = Flt q /\ signed false q)).
  { intros a Ha. apply In_all in Ha.
    destruct (derived_keys self h V h' E a Ha) as [C _]. split; [exact C|].
    apply (validated_cost_cases self (h a)); auto.
    - apply (validated_fuels_ok self h V).
    - apply (validated_unit_ok self h V a Ha). }
  assert (Srt : Sorted (key_le (key_of h')) plants).
  { rewrite Hs. apply sorted_sorted. apply Forall_forall. intros a Ha.
    apply (derived_keys self h V h' E a Ha). }
  assert (Hl : In l plants).
  { rewrite Hp. apply in_or_app. right. left. reflexivity. }
  assert (Hx : py_le (key_of h' l) (Int 0) = true).
  { destruct (K l Hl) as (_ & W & _). rewrite (W Ht). reflexivity. }
  assert (F : Forall (fun a => py_le (key_of h' a) (Int 0) = true) pre).
  { apply (zero_key_before (key_of h') pre l post); [congruence| |exact Hx].
    intros a Ha. rewrite <- Hp in Ha. apply (K a Ha). }
  rewrite Forall_forall in *. intros a Ha.
  exists (key_of h' a). split; [|apply F, Ha].
  apply K. rewrite Hp. apply in_or_app. left. exact Ha.
Qed.

Lemma no_positive_cost_before_wind_witness :
  Forall (fun l' => exists c,
            calculate_cost_per_MWH (calculator 1 (prices 10) residue)
              (store_of residue l') = Ok c
            /\ py_le c (Int 0) = true) [0%nat].
Proof.
  apply (no_positive_cost_before_wind (calculator 1 (prices 10) residue)
           (store_of residue) [0%nat; 1%nat; 2%nat; 3%nat] [0%nat] 1%nat
           [2%nat; 3%nat]).
  - vm_compute. reflexivity.
  - vm_compute. reflexivity.
  - reflexivity.
  - reflexivity.
Defined.

(** Where the exceptions of [get_production_plan] come from, for a
    request whose listed units are distinct objects with an [int] in
    [pmax], and whatever its load, prices, types, efficiencies and minima
    are: it raises [ManualInterventionNeeded], [OverflowError],
    [InvalidPlantTypeProvided] when a unit has an unknown type, or
    [ZeroDivisionError] when a gasfired or turbojet unit has an efficiency
    of zero.  It raises no [TypeError] and no [UnboundLocalError].  Of
    the sort, the proof uses only that it rearranges its input, so the
    order of units whose cost is a NaN does not matter. *)
Theorem parsed_request_exceptions
    (self : ProductionPlanCalculator) (h : store) (e : exn) :
  parsed self h = true ->
  snd (get_production_plan self h) = Raise e ->
  e = ManualInterventionNeeded \/ e = OverflowError
  \/ (e = InvalidPlantTypeProvided /\ known_kinds self h = false)
  \/ (e = ZeroDivisionError /\ divides_by_zero self h = true).
Proof.
  intros U.
  pose proof (derive_loop_parsed self _ h (parsed_NoDup self h U)
                (parsed_int_pmax self h U)) as D.
  pose proof (parsed_views self h U) as Vw.
  unfold get_production_plan, get_sorted_powerplants_with_pmax_and_cost.
  destruct (derive_loop self (self_powerplants self) h) as [h' [[]|e']];
    cbn [snd].
  - destruct (Vw h' eq_refl (sorted (key_of h') (self_powerplants self)))
      as (units & Hv & Hc).
    { intros x Hx. eapply Permutation_in; [apply sorted_perm | exact Hx]. }
    rewrite (allocate_loop_dispatch h' _ units (initial_locals self) Hv Hc
               eq_refl).
    cbn [initial_locals remaining_load].
    destruct (dispatch (Int (self_load self)) units) as [items|e0] eqn:Ed;
      cbn [bind]; try discriminate.
    intros [= <-]. apply dispatch_raises in Ed. tauto.
  - intros [= <-].
    destruct D as [D|[(-> & l & Hin & Hk)|(-> & l & Hin & Hz)]]; auto.
    + right. right. left. split; auto. unfold known_kinds.
      destruct (forallb _ _) eqn:F; auto.
      rewrite forallb_forall in F. specialize (F l Hin). rewrite Hk in F.
      discriminate.
    + right. right. right. split; auto. unfold divides_by_zero.
      apply existsb_exists. eauto.
Qed.

Lemma parsed_request_exceptions_witness :
  ZeroDivisionError = ManualInterventionNeeded
  \/ ZeroDivisionError = OverflowError
  \/ (ZeroDivisionError = InvalidPlantTypeProvided
      /\ known_kinds (calculator 100 (prices 60) zero_efficiency)
           (store_of zero_efficiency) = false)
  \/ (ZeroDivisionError = ZeroDivisionError
      /\ divides_by_zero (calculator 100 (prices 60) zero_efficiency)
           (store_of zero_efficiency) = true).
Proof.
  apply (parsed_request_exceptions (calculator 100 (prices 60) zero_efficiency)
           (store_of zero_efficiency) ZeroDivisionError).
  - vm_compute. reflexivity.
  - vm_compute. reflexivity.
Defined.

(** A request that [get_production_plan] rejects with
    [ManualInterventionNeeded] has been derived in full before: every
    listed object holds its derived cost in [cost_per_MWH] and its derived
    capacity in [pmax], as after a successful call. *)
Theorem rejected_request_leaves_derived_fields
    (self : ProductionPlanCalculator) (h : store) (l : loc) :
  NoDup (self_powerplants self) ->
  snd (get_production_plan self h) = Raise ManualInterventionNeeded ->
  In l (self_powerplants self) ->
  exists c m,
    calculate_cost_per_MWH self (h l) = Ok c
    /\ calculate_pmax self (h l) = Ok m
    /\ cost_per_MWH (fst (get_production_plan self h) l) = Some c
    /\ pmax (fst (get_production_plan self h) l) = m.
Proof.
  intros ND R Hl. apply manual_after_ranking in R.
  destruct (derive_loop_cost_set self _ _ _ R l Hl) as (c & Hc & Hk).
  destruct (derive_loop_pmax self _ _ _ R ND l Hl) as (m & Hm & Hp).
  exists c, m. auto.
Qed.

Lemma rejected_request_leaves_derived_fields_witness :
  exists c m,
    calculate_cost_per_MWH (calculator 1 (prices 10) residue)
      (store_of residue 1%nat) = Ok c
    /\ calculate_pmax (calculator 1 (prices 10) residue)
         (store_of residue 1%nat) = Ok m
    /\ cost_per_MWH
         (fst (get_production_plan (calculator 1 (prices 10) residue)
                 (store_of residue)) 1%nat) = Some c
    /\ pmax
         (fst (get_production_plan (calculator 1 (prices 10) residue)
                 (store_of residue)) 1%nat) = m.
Proof.
  apply (rejected_request_leaves_derived_fields
           (calculator 1 (prices 10) residue) (store_of residue) 1%nat).
  - repeat constructor; simpl; intuition discriminate.
  - vm_compute. reflexivity.
  - simpl. tauto.
Defined.

(** The exceptions of a validated request whose load and capacities are
    below [2^1000]: [get_production_plan] raises
    [ManualInterventionNeeded], or [InvalidPlantTypeProvided] when a unit
    has an unknown type, and nothing else; no intermediate double
    overflows. *)
Theorem limited_request_exceptions
    (self : ProductionPlanCalculator) (h : store) (e : exn) :
  validated self h = true ->
  within_limits self h = true ->
  snd (get_production_plan self h) = Raise e ->
  e = ManualInterventionNeeded
  \/ (e = InvalidPlantTypeProvided /\ known_kinds self h = false).
Proof. intros V L. apply limited_request_raises; assumption. Qed.

Lemma limited_request_exceptions_witness :
  ManualInterventionNeeded = ManualInterventionNeeded
  \/ (ManualInterventionNeeded = InvalidPlantTypeProvided
      /\ known_kinds (calculator 1 (prices 10) residue) (store_of residue)
         = false).
Proof.
  apply (limited_request_exceptions (calculator 1 (prices 10) residue)
           (store_of residue) ManualInterventionNeeded).
  - vm_compute. reflexivity.
  - vm_compute. reflexivity.
  - vm_compute. reflexivity.
Defined.

(** The handler of POST /productionplan answers every validated request
    whose load and capacities are below [2^1000] and whose units all have
    a known type: it returns a plan or the [error] entry, and lets no
    exception through. *)
Theorem handler_always_answers (input_data : InputData) (h : store) :
  validated (init input_data) h = true ->
  within_limits (init input_data) h = true ->
  known_kinds (init input_data) h = true ->
  exists b, snd (App.get_production_plan input_data h) = Ok b.
Proof.
  intros V L K. pose proof (handler_cases input_data h) as C.
  destruct (snd (App.get_production_plan input_data h)) as [b|e]; eauto.
  destruct C as [N E].
  destruct (limited_request_raises (init input_data) h V L e E)
    as [->|[_ F]]; congruence.
Qed.

Lemma handler_always_answers_witness :
  exists b,
    snd (App.get_production_plan
           {| load := 480; fuels := prices 60;
              powerplants := seq 0 (List.length scenario1) |}
           (store_of scenario1)) = Ok b.
Proof.
  apply (handler_always_answers
           {| load := 480; fuels := prices 60;
              powerplants := seq 0 (List.length scenario1) |}
           (store_of scenario1)).
  - vm_compute. reflexivity.
  - vm_compute. reflexivity.
  - vm_compute. reflexivity.
Defined.

(** What a call writes, on every request and whether it returns a plan
    or raises: the name, type, efficiency and minimum of every object are
    as they were; the [pmax] of every object that is not a wind turbine
    is as it was; an object that is not in the calculator's list is not
    touched.  After a successful run each listed object holds its derived
    marginal cost in [cost_per_MWH] and, when the list has no duplicates,
    its derived capacity in [pmax]. *)
Theorem engine_writes_only_derived_fields
    (self : ProductionPlanCalculator) (h : store) (l : loc) :
  same_inputs (fst (get_production_plan self h) l) (h l)
  /\ (type (h l) <> "windturbine" ->
      pmax (fst (get_production_plan self h) l) = pmax (h l))
  /\ (~ In l (self_powerplants self) ->
      fst (get_production_plan self h) l = h l)
  /\ (forall plan,
        snd (get_production_plan self h) = Ok plan ->
        In l (self_powerplants self) ->
        (exists c,
           calculate_cost_per_MWH self (h l) = Ok c
           /\ cost_per_MWH (fst (get_production_plan self h) l) = Some c)
        /\ (NoDup (self_powerplants self) ->
            exists m,
              calculate_pmax self (h l) = Ok m
              /\ pmax (fst (get_production_plan self h) l) = m)).
Proof.
  rewrite get_production_plan_store, get_sorted_store.
  pose proof (derive_loop_frame self (self_powerplants self) h l) as [F1 F2].
  split; [exact F1|]. split; [apply derive_loop_keeps_pmax|].
  split; [exact F2|].
  intros plan P Hl.
  destruct (get_production_plan_ok self h plan P) as (plants & st & S & _ & _).
  destruct (get_sorted_ok self h plants S) as [E _].
  rewrite get_sorted_store in E. split.
  - apply (derive_loop_cost_set self _ _ _ E l Hl).
  - intros ND. apply (derive_loop_pmax self _ _ _ E ND l Hl).
Qed.

(** * The claims *)

(** C1.  For every validated request, [get_production_plan] walks the
    units in ranked order with a running remaining load that starts at
    the requested load, and at each unit takes the first of four cases
    that applies: remaining load not above 0, the unit is listed with 0;
    remaining load below the unit's minimum, the whole computation raises
    [ManualInterventionNeeded] and returns no plan; remaining load at or
    above the effective capacity, the unit gets the capacity rounded to
    one decimal, which is subtracted; otherwise the unit gets the
    remaining load rounded to one decimal, which is subtracted.  That is
    [dispatch], and the method computes it over the ranked units; when
    the ranking itself raises, so does the method. *)
Theorem get_production_plan_is_dispatch
    (self : ProductionPlanCalculator) (h : store) :
  validated self h = true ->
  match snd (get_sorted_powerplants_with_pmax_and_cost self h) with
  | Raise e => snd (get_production_plan self h) = Raise e
  | Ok plants =>
      exists ranked,
        Forall2 (effective_unit self h) plants ranked
        /\ snd (get_production_plan self h)
           = dispatch (Int (self_load self)) ranked
  end.
Proof.
  intros V.
  destruct (snd (get_sorted_powerplants_with_pmax_and_cost self h))
    as [plants|e] eqn:S.
  - destruct (plan_is_dispatch self h plants V S) as (r & H1 & _ & H2).
    exists r. split; assumption.
  - unfold get_production_plan.
    destruct (get_sorted_powerplants_with_pmax_and_cost self h) as [h' [pl|e']];
      cbn [snd] in *; congruence.
Qed.

Lemma get_production_plan_is_dispatch_witness :
  validated (calculator 480 (prices 60) scenario1) (store_of scenario1) = true
  /\ snd (get_sorted_powerplants_with_pmax_and_cost
            (calculator 480 (prices 60) scenario1) (store_of scenario1))
     = Ok [1%nat; 2%nat; 0%nat]
  /\ match
       snd (get_sorted_powerplants_with_pmax_and_cost
              (calculator 480 (prices 60) scenario1) (store_of scenario1))
     with
     | Raise e =>
         snd (get_production_plan (calculator 480 (prices 60) scenario1)
                (store_of scenario1)) = Raise e
     | Ok plants =>
         exists ranked,
           Forall2 (effective_unit (calculator 480 (prices 60) scenario1)
                      (store_of scenario1)) plants ranked
           /\ snd (get_production_plan (calculator 480 (prices 60) scenario1)
                     (store_of scenario1))
              = dispatch (Int 480) ranked
     end.
Proof.
  split; [vm_compute; reflexivity|]. split; [vm_compute; reflexivity|].
  apply (get_production_plan_is_dispatch
           (calculator 480 (prices 60) scenario1) (store_of scenario1)).
  vm_compute. reflexivity.
Defined.

(** C2.  The derived marginal cost is the gas price divided by the
    efficiency for a fossil-gas unit ("gasfired"), the kerosine price
    divided by the efficiency for a fossil-distillate unit ("turbojet"),
    and exactly 0 for a wind unit ("windturbine"); the derived effective
    capacity is the nameplate maximum times the wind percentage, divided
    by 100 and not rounded, for a wind unit, and the nameplate maximum
    itself for the two fuel-burning kinds. *)
Theorem derived_cost_and_capacity
    (self : ProductionPlanCalculator) (o : Powerplant) (k : kind) (n : Z) :
  kind_of_type (type o) = Some k ->
  pmax o = Some (Int n) ->
  calculate_cost_per_MWH self o
  = deriveMarginalCost k (self_fuels self) (efficiency o)
  /\ calculate_pmax self o
     = (c <- deriveEffectiveCapacity k (self_fuels self) n;; Ok (Some c)).
Proof.
  unfold kind_of_type, calculate_cost_per_MWH, calculate_pmax.
  intros Hk Hp. rewrite Hp.
  destruct (String.eqb (type o) "gasfired") eqn:Eg.
  { injection Hk as <-. apply String.eqb_eq in Eg. rewrite Eg. auto. }
  destruct (String.eqb (type o) "turbojet") eqn:Et.
  { injection Hk as <-. apply String.eqb_eq in Et. rewrite Et. auto. }
  destruct (String.eqb (type o) "windturbine") eqn:Ew; try discriminate.
  injection Hk as <-. split; reflexivity.
Qed.

Lemma derived_cost_and_capacity_witness :
  calculate_cost_per_MWH (calculator 10 (prices 38) small_wind)
    (store_of small_wind 0%nat) = Ok (Int 0)
  /\ calculate_pmax (calculator 10 (prices 38) small_wind)
       (store_of small_wind 0%nat) = Ok (Some (Flt (dec 266 2))).
Proof.
  apply (derived_cost_and_capacity (calculator 10 (prices 38) small_wind)
           (store_of small_wind 0%nat) Wind 7); reflexivity.
Defined.

(** C3.  A unit of a kind outside the closed set: the cost derivation
    raises [InvalidPlantTypeProvided], but the capacity derivation does
    not fail the same way; it raises [UnboundLocalError]. *)
Theorem calculate_pmax_unknown_kind :
  kind_of_type (type solar) = None
  /\ calculate_cost_per_MWH (calculator 90 (prices 60) with_solar) solar
     = Raise InvalidPlantTypeProvided
  /\ calculate_pmax (calculator 90 (prices 60) with_solar) solar
     = Raise UnboundLocalError.
Proof. repeat split. Qed.

(** C4.  A load of 100 and one gas unit of 10: the method returns a plan,
    and the plan's total of 10 is not within one tenth of the load. *)
Theorem short_plan_is_returned :
  validated (calculator 100 (prices 60) one_gas) (store_of one_gas) = true
  /\ snd (get_production_plan (calculator 100 (prices 60) one_gas)
            (store_of one_gas))
     = Ok [ {| item_name := "g"; p := dec 10 0 |} ]
  /\ conserves 100 [ {| item_name := "g"; p := dec 10 0 |} ] = false.
Proof. repeat split; vm_compute; reflexivity. Qed.

(** C5, as amended.  For a validated request, every entry of a returned
    plan is not below zero and is the one-decimal rounding of a quantity
    between zero and its unit's effective capacity (the wind-scaled
    capacity of a wind unit, the nameplate maximum of a fuel-burning
    one); the entries stand in ranked order, one for each ranked unit. *)
Theorem assigned_output_rounds_within_capacity
    (self : ProductionPlanCalculator) (h : store) (plan : list ResultItem) :
  validated self h = true ->
  snd (get_production_plan self h) = Ok plan ->
  exists plants ranked,
    snd (get_sorted_powerplants_with_pmax_and_cost self h) = Ok plants
    /\ Forall2 (effective_unit self h) plants ranked
    /\ Forall2 entry_ok ranked plan.
Proof.
  intros V P.
  destruct (get_production_plan_ok self h plan P) as (plants & st & S & _ & _).
  destruct (plan_is_dispatch self h plants V S) as (ranked & He & Hc & Hd).
  exists plants, ranked. repeat split; auto.
  rewrite P in Hd. symmetry in Hd.
  exact (dispatch_bounds ranked (Int (self_load self)) plan Hc eq_refl Hd).
Qed.

Lemma assigned_output_rounds_within_capacity_witness :
  validated (calculator 10 (prices 38) small_wind) (store_of small_wind) = true
  /\ snd (get_production_plan (calculator 10 (prices 38) small_wind)
            (store_of small_wind))
     = Ok [ {| item_name := "w"; p := dec 27 1 |} ]
  /\ exists plants ranked,
       snd (get_sorted_powerplants_with_pmax_and_cost
              (calculator 10 (prices 38) small_wind) (store_of small_wind))
       = Ok plants
       /\ Forall2 (effective_unit (calculator 10 (prices 38) small_wind)
                     (store_of small_wind)) plants ranked
       /\ Forall2 entry_ok ranked [ {| item_name := "w"; p := dec 27 1 |} ].
Proof.
  split; [vm_compute; reflexivity|]. split; [vm_compute; reflexivity|].
  apply (assigned_output_rounds_within_capacity
           (calculator 10 (prices 38) small_wind) (store_of small_wind));
    vm_compute; reflexivity.
Defined.

(** C5 as stated fails: a turbine of 7 at 38 percent of wind has an
    effective capacity of 2.66 and is assigned 2.7. *)
Lemma rounded_output_exceeds_capacity :
  validated (calculator 10 (prices 38) small_wind) (store_of small_wind) = true
  /\ calculate_pmax (calculator 10 (prices 38) small_wind)
       (store_of small_wind 0%nat) = Ok (Some (Flt (dec 266 2)))
  /\ snd (get_production_plan (calculator 10 (prices 38) small_wind)
            (store_of small_wind))
     = Ok [ {| item_name := "w"; p := dec 27 1 |} ]
  /\ py_le (Flt (dec 27 1)) (Flt (dec 266 2)) = false.
Proof. repeat split; vm_compute; reflexivity. Qed.

(** C6.  For a validated request (its list is not empty) on which the
    engine succeeds, the plan has exactly one entry for each input unit,
    in an order that is a rearrangement of the input, ascending by
    derived marginal cost, and that keeps units of equal cost in their
    input order. *)
Theorem plan_lists_every_unit_in_merit_order
    (self : ProductionPlanCalculator) (h : store) (plan : list ResultItem) :
  validated self h = true ->
  snd (get_production_plan self h) = Ok plan ->
  exists (ranked : list loc) (cost : loc -> num),
    map item_name plan = map (fun l => name (h l)) ranked
    /\ List.length plan = List.length (self_powerplants self)
    /\ Permutation ranked (self_powerplants self)
    /\ (forall l, In l (self_powerplants self) ->
          calculate_cost_per_MWH self (h l) = Ok (cost l))
    /\ Sorted (key_le cost) ranked
    /\ (forall c,
          filter (fun l => same_cost c (cost l)) ranked
          = filter (fun l => same_cost c (cost l)) (self_powerplants self)).
Proof.
  intros V P.
  destruct (get_production_plan_ok self h plan P) as (plants & st & S & A & ->).
  destruct (get_sorted_ok self h plants S) as [E Hs].
  set (h' := fst (get_sorted_powerplants_with_pmax_and_cost self h)) in *.
  assert (Hn : map item_name (production_plan st)
               = map (fun l => name (h l)) plants).
  { rewrite (allocate_loop_names h' plants _ _ A). cbn [initial_locals
      production_plan map app].
    apply map_ext. intros l.
    pose proof (derive_loop_frame self (self_powerplants self) h l) as [F _].
    rewrite E in F. cbn [fst] in F. destruct F as [F _]. exact F. }
  assert (Hperm : Permutation plants (self_powerplants self)).
  { rewrite Hs. apply sorted_perm. }
  exists plants, (key_of h'). repeat split.
  - exact Hn.
  - rewrite <- (length_map item_name), Hn, length_map.
    apply Permutation_length, Hperm.
  - exact Hperm.
  - intros l Hl. apply (derived_keys self h V h' E l Hl).
  - rewrite Hs. apply sorted_sorted. apply Forall_forall. intros l Hl.
    apply (derived_keys self h V h' E l Hl).
  - intros c. rewrite Hs. apply sorted_stable.
Qed.

Lemma plan_lists_every_unit_in_merit_order_witness :
  validated (calculator 480 (prices 60) scenario1) (store_of scenario1) = true
  /\ exists (ranked : list loc) (cost : loc -> num),
       map item_name
         [ {| item_name := "wind"; p := dec 120 0 |};
           {| item_name := "gasA"; p := dec 360 0 |};
           {| item_name := "gasB"; p := S754_zero false |} ]
       = map (fun l => name (store_of scenario1 l)) ranked
       /\ List.length
            [ {| item_name := "wind"; p := dec 120 0 |};
              {| item_name := "gasA"; p := dec 360 0 |};
              {| item_name := "gasB"; p := S754_zero false |} ]
          = List.length
              (self_powerplants (calculator 480 (prices 60) scenario1))
       /\ Permutation ranked
            (self_powerplants (calculator 480 (prices 60) scenario1))
       /\ (forall l,
             In l (self_powerplants (calculator 480 (prices 60) scenario1)) ->
             calculate_cost_per_MWH (calculator 480 (prices 60) scenario1)
               (store_of scenario1 l) = Ok (cost l))
       /\ Sorted (key_le cost) ranked
       /\ (forall c,
             filter (fun l => same_cost c (cost l)) ranked
             = filter (fun l => same_cost c (cost l))
                 (self_powerplants (calculator 480 (prices 60) scenario1))).
Proof.
  split; [vm_compute; reflexivity|].
  apply (plan_lists_every_unit_in_merit_order
           (calculator 480 (prices 60) scenario1) (store_of scenario1));
    vm_compute; reflexivity.
Defined.

(** C7.  The caller's records are modified.  After the run of scenario 1,
    which returns its plan, the caller's wind turbine, given with a
    [pmax] of 200 and no [cost_per_MWH], holds a [pmax] of 120.0 and a
    [cost_per_MWH] of 0: [list(self.powerplants)] copies the list, and
    the loop assigns to the objects the caller still holds. *)
Theorem caller_record_is_modified :
  snd (get_production_plan (calculator 480 (prices 60) scenario1)
         (store_of scenario1))
  = Ok [ {| item_name := "wind"; p := dec 120 0 |};
         {| item_name := "gasA"; p := dec 360 0 |};
         {| item_name := "gasB"; p := S754_zero false |} ]
  /\ pmax (store_of scenario1 1%nat) = Some (Int 200)
  /\ pmax (fst (get_production_plan (calculator 480 (prices 60) scenario1)
                  (store_of scenario1)) 1%nat)
     = Some (Flt (dec 120 0))
  /\ cost_per_MWH (store_of scenario1 1%nat) = None
  /\ cost_per_MWH
       (fst (get_production_plan (calculator 480 (prices 60) scenario1)
               (store_of scenario1)) 1%nat)
     = Some (Int 0)
  /\ fst (get_production_plan (calculator 480 (prices 60) scenario1)
            (store_of scenario1)) 1%nat
     <> store_of scenario1 1%nat.
Proof.
  repeat split; try (vm_compute; reflexivity).
  intros E. apply (f_equal pmax) in E. vm_compute in E. discriminate.
Qed.

(** C8.  The same calculator, asked twice: the first call scales the
    turbine's [pmax] of 200 to 120.0 and stores it in the object, the
    second scales the 120.0 again, to 72.0, and returns another plan. *)
Theorem second_call_returns_another_plan :
  snd (get_production_plan (calculator 100 (prices 60) one_wind)
         (store_of one_wind))
  = Ok [ {| item_name := "w"; p := dec 100 0 |} ]
  /\ snd (get_production_plan (calculator 100 (prices 60) one_wind)
            (fst (get_production_plan (calculator 100 (prices 60) one_wind)
                    (store_of one_wind))))
     = Ok [ {| item_name := "w"; p := dec 72 0 |} ]
  /\ pmax (fst (get_production_plan (calculator 100 (prices 60) one_wind)
                  (store_of one_wind)) 0%nat)
     = Some (Flt (dec 120 0)).
Proof. repeat split; vm_compute; reflexivity. Qed.

(** C9.  Load 1 at 10 percent of wind.  After the two turbines (0.1 and
    0.7) the remaining load is 0.20000000000000007, strictly between the
    minimum 0 and the capacity 5 of the next unit, which is assigned 0.2.
    The remaining load becomes 2^-54, above zero, and the last unit, with
    a minimum of 1, raises [ManualInterventionNeeded]. *)
Theorem positive_residue_raises :
  snd (get_sorted_powerplants_with_pmax_and_cost
         (calculator 1 (prices 10) residue) (store_of residue))
  = Ok [0%nat; 1%nat; 2%nat; 3%nat]
  /\ (st <- allocate_loop
              (fst (get_sorted_powerplants_with_pmax_and_cost
                      (calculator 1 (prices 10) residue) (store_of residue)))
              [0%nat; 1%nat] (initial_locals (calculator 1 (prices 10) residue));;
      Ok (remaining_load st))
     = Ok (Flt (S754_finite false 7205759403792796 (-55)))
  /\ (st <- allocate_loop
              (fst (get_sorted_powerplants_with_pmax_and_cost
                      (calculator 1 (prices 10) residue) (store_of residue)))
              [0%nat; 1%nat; 2%nat]
              (initial_locals (calculator 1 (prices 10) residue));;
      Ok (remaining_load st, production_plan st))
     = Ok (Flt (S754_finite false 4503599627370496 (-106)),
           [ {| item_name := "w1"; p := dec 1 1 |};
             {| item_name := "w2"; p := dec 7 1 |};
             {| item_name := "g1"; p := dec 2 1 |} ])
  /\ py_gt (Flt (S754_finite false 4503599627370496 (-106))) (Int 0) = true
  /\ snd (get_production_plan (calculator 1 (prices 10) residue)
            (store_of residue))
     = Raise ManualInterventionNeeded.
Proof. repeat split; vm_compute; reflexivity. Qed.

(** C10.  Requests the [Powerplant] model accepts on which exceptions
    other than the two declared ones escape: a gas unit whose efficiency
    is 0 ([ZeroDivisionError]), a wind turbine without [pmax]
    ([TypeError] in [calculate_pmax]), a gas unit without [pmax]
    ([TypeError] in the allocation loop). *)
Theorem undeclared_exceptions_escape :
  snd (get_production_plan (calculator 100 (prices 60) zero_efficiency)
         (store_of zero_efficiency))
  = Raise ZeroDivisionError
  /\ snd (get_production_plan (calculator 100 (prices 60) no_pmax)
            (store_of no_pmax))
     = Raise TypeError
  /\ snd (get_production_plan (calculator 100 (prices 60) no_pmax_gas)
            (store_of no_pmax_gas))
     = Raise TypeError.
Proof. repeat split; vm_compute; reflexivity. Qed.
